(** * CharacterCounter: the text-statistics engine of the toolbox

    A shallow embedding of [src/components/tools/CharacterCounter.tsx]:
    the single-pass scan of [calculateStats], the tokenizer front end
    [calculateTokens] and the debounced scheduling of [updateStats].

    ECMAScript strings are sequences of UTF-16 code units.  [inputText.length]
    is the number of units, [inputText[i]] is the one-unit string at index
    [i] and [char.charCodeAt(0)] is that unit as a number, so a string is
    modelled as the list of its code units.  ECMAScript numbers are modelled
    as [Z]: every counter of the program is an integer bounded by the length
    of a string, far below 2^53, where doubles are exact. *)

From Stdlib Require Import ZArith List String Ascii Bool Lia.
Import ListNotations.
Open Scope Z_scope.

(** ** Strings of the host language *)

Module JsString.

(** A string: its UTF-16 code units, each in [0, 65535]. *)
Definition t := list Z.

(** [s.length] *)
Definition length (s : t) : Z := Z.of_nat (List.length s).

(** An ASCII string literal of the source, as code units. *)
Definition lit (s : string) : t :=
  map (fun a => Z.of_nat (nat_of_ascii a)) (list_ascii_of_string s).

(** The code units that store one Unicode scalar value: itself in the Basic
    Multilingual Plane, a surrogate pair above it. *)
Definition utf16_encode (cp : Z) : t :=
  if cp <? 65536 then [cp]
  else [55296 + Z.shiftr (cp - 65536) 10; 56320 + Z.land (cp - 65536) 1023].

(** A text given by its Unicode scalar values, as the string that holds it. *)
Definition of_scalars (cps : list Z) : t := flat_map utf16_encode cps.

(** A Unicode scalar value: a code point that is not a surrogate. *)
Definition is_scalar (cp : Z) : bool :=
  (0 <=? cp) && (cp <=? 1114111) && negb ((55296 <=? cp) && (cp <=? 57343)).

(** Scalar values outside the Basic Multilingual Plane. *)
Definition astral (cp : Z) : bool := 65536 <=? cp.

End JsString.

(** ** The report *)

(** [interface CharacterStats]; the optional [tokens] is [None] when the
    field is [undefined]. *)
Record CharacterStats := mkStats {
  totalChars : Z;
  totalCharsNoSpaces : Z;
  words : Z;
  lines : Z;
  paragraphs : Z;
  chineseChars : Z;
  englishChars : Z;
  numbers : Z;
  punctuation : Z;
  spaces : Z;
  tokens : option Z
}.

(** The object literal used for the empty text, for the initial component
    state and for [clearText]. *)
Definition emptyStats (tk : option Z) : CharacterStats :=
  mkStats 0 0 0 0 0 0 0 0 0 0 tk.

(** [{...prevStats, tokens: n}] *)
Definition withTokens (prev : CharacterStats) (n : Z) : CharacterStats :=
  mkStats (totalChars prev) (totalCharsNoSpaces prev) (words prev) (lines prev)
          (paragraphs prev) (chineseChars prev) (englishChars prev)
          (numbers prev) (punctuation prev) (spaces prev) (Some n).

(** ** Character tests of [calculateStats] *)

Definition LF : Z := 10.
Definition CR : Z := 13.
Definition TAB : Z := 9.
Definition SP : Z := 32.

(** [char === ' ' || char === '\t'] *)
Definition isSpace (code : Z) : bool := (code =? SP) || (code =? TAB).

(** [char >= '0' && char <= '9'] on one-unit strings compares the units. *)
Definition isDigit (code : Z) : bool := (48 <=? code) && (code <=? 57).

(** [(code >= 65 && code <= 90) || (code >= 97 && code <= 122)] *)
Definition isEnglish (code : Z) : bool :=
  ((65 <=? code) && (code <=? 90)) || ((97 <=? code) && (code <=? 122)).

(** [code >= 0x4e00 && code <= 0x9fff] *)
Definition isChinese (code : Z) : bool := (19968 <=? code) && (code <=? 40959).

(** The members of the character class of the punctuation test, in the
    order of the source: period, comma, semicolon, colon, exclamation and
    question mark, both quotes, the three bracket pairs, hyphen, underscore,
    plus, equals, angle brackets, slash, at, hash, dollar, percent, caret,
    ampersand, star, tilde, backquote, bar and backslash. *)
Definition punctuationClass : list Z :=
  [46; 44; 59; 58; 33; 63; 39; 34; 40; 41; 91; 93; 123; 125; 45; 95; 43; 61;
   60; 62; 47; 64; 35; 36; 37; 94; 38; 42; 126; 96; 124; 92].

(** [/[...]/.test(char)] for a one-unit [char]. *)
Definition punctuationTest (code : Z) : bool :=
  existsb (Z.eqb code) punctuationClass.

(** [char !== '\n' && char !== '\r' && /[...]/.test(char)] *)
Definition isPunctuation (code : Z) : bool :=
  negb (code =? LF) && negb (code =? CR) && punctuationTest code.

(** The word-character test: the class a-z, A-Z, 0-9 and U+4E00 to U+9FFF. *)
Definition isWordChar (code : Z) : bool :=
  ((97 <=? code) && (code <=? 122)) || ((65 <=? code) && (code <=? 90))
  || ((48 <=? code) && (code <=? 57)) || ((19968 <=? code) && (code <=? 40959)).

(** [char !== ' ' && char !== '\t' && char !== '\r'], tested on a character
    that is not a line feed. *)
Definition opensParagraph (code : Z) : bool :=
  negb (code =? SP) && negb (code =? TAB) && negb (code =? CR).

(** ** The first loop of [calculateStats] *)

(** The mutable locals of the first loop. *)
Record Scan := mkScan {
  s_chineseChars : Z;
  s_englishChars : Z;
  s_numbers : Z;
  s_punctuation : Z;
  s_spaces : Z;
  s_lines : Z;
  s_paragraphs : Z;
  s_inParagraph : bool
}.

(** The values of the locals before the loop: [lines = 1], the rest zero. *)
Definition scanInit : Scan := mkScan 0 0 0 0 0 1 0 false.

(** The first [if] of the body: lines and paragraphs. *)
Definition scanLine (st : Scan) (code : Z) : Scan :=
  if code =? LF then
    mkScan (s_chineseChars st) (s_englishChars st) (s_numbers st)
           (s_punctuation st) (s_spaces st) (s_lines st + 1)
           (if s_inParagraph st then s_paragraphs st + 1 else s_paragraphs st)
           false
  else if opensParagraph code then
    mkScan (s_chineseChars st) (s_englishChars st) (s_numbers st)
           (s_punctuation st) (s_spaces st) (s_lines st) (s_paragraphs st)
           (if negb (s_inParagraph st) then true else s_inParagraph st)
  else st.

(** The second [if] of the body: the character classes, first match wins. *)
Definition scanClass (st : Scan) (code : Z) : Scan :=
  if isSpace code then
    mkScan (s_chineseChars st) (s_englishChars st) (s_numbers st)
           (s_punctuation st) (s_spaces st + 1) (s_lines st) (s_paragraphs st)
           (s_inParagraph st)
  else if isDigit code then
    mkScan (s_chineseChars st) (s_englishChars st) (s_numbers st + 1)
           (s_punctuation st) (s_spaces st) (s_lines st) (s_paragraphs st)
           (s_inParagraph st)
  else if isEnglish code then
    mkScan (s_chineseChars st) (s_englishChars st + 1) (s_numbers st)
           (s_punctuation st) (s_spaces st) (s_lines st) (s_paragraphs st)
           (s_inParagraph st)
  else if isChinese code then
    mkScan (s_chineseChars st + 1) (s_englishChars st) (s_numbers st)
           (s_punctuation st) (s_spaces st) (s_lines st) (s_paragraphs st)
           (s_inParagraph st)
  else if isPunctuation code then
    mkScan (s_chineseChars st) (s_englishChars st) (s_numbers st)
           (s_punctuation st + 1) (s_spaces st) (s_lines st) (s_paragraphs st)
           (s_inParagraph st)
  else st.

(** One iteration of the first loop. *)
Definition scanStep (st : Scan) (code : Z) : Scan :=
  scanClass (scanLine st code) code.

(** [for (let i = 0; i < totalChars; i++)] over the units, from [st]. *)
Definition scanLoop (st : Scan) (inputText : JsString.t) : Scan :=
  fold_left scanStep inputText st.

(** [if (inParagraph) paragraphs++] after the loop. *)
Definition closeParagraph (st : Scan) : Z :=
  if s_inParagraph st then s_paragraphs st + 1 else s_paragraphs st.

(** ** The second loop of [calculateStats] *)

(** One iteration: the locals are [(words, inWord)]. *)
Definition wordStep (st : Z * bool) (code : Z) : Z * bool :=
  let '(w, inWord) := st in
  if isWordChar code && negb inWord then (w + 1, true)
  else if negb (isWordChar code) then (w, false)
  else (w, inWord).

Definition wordLoop (st : Z * bool) (inputText : JsString.t) : Z * bool :=
  fold_left wordStep inputText st.

(** The synchronous part of [calculateStats]: everything before
    [if (includeTokens)], with the [tokens] field still to be filled in. *)
Definition scanStats (inputText : JsString.t) (tk : option Z) : CharacterStats :=
  let totalChars := JsString.length inputText in
  let st := scanLoop scanInit inputText in
  let paragraphs := closeParagraph st in
  let totalCharsNoSpaces := totalChars - s_spaces st in
  let words := fst (wordLoop (0, false) inputText) in
  mkStats totalChars totalCharsNoSpaces words (s_lines st) paragraphs
          (s_chineseChars st) (s_englishChars st) (s_numbers st)
          (s_punctuation st) (s_spaces st) tk.

(** ** The tokenizer front end *)

(** One entry of [SUPPORTED_MODELS]. *)
Record Model := mkModel {
  value : string;
  label : string;
  encoding : string
}.

Definition SUPPORTED_MODELS : list Model :=
  [ mkModel "gpt-4o" "GPT-4o" "o200k_base";
    mkModel "gpt-4o-mini" "GPT-4o Mini" "o200k_base";
    mkModel "o1-preview" "o1-preview" "o200k_base";
    mkModel "o1-mini" "o1-mini" "o200k_base";
    mkModel "gpt-4-turbo" "GPT-4 Turbo" "cl100k_base";
    mkModel "gpt-4" "GPT-4" "cl100k_base";
    mkModel "gpt-3.5-turbo" "GPT-3.5 Turbo" "cl100k_base";
    mkModel "text-davinci-003" "Text Davinci 003" "p50k_base";
    mkModel "text-davinci-002" "Text Davinci 002" "p50k_base";
    mkModel "text-davinci-001" "Text Davinci 001" "r50k_base" ]%string.

(** [SUPPORTED_MODELS.find(m => m.value === modelValue)] *)
Definition findModel (modelValue : string) : option Model :=
  find (fun m => String.eqb (value m) modelValue) SUPPORTED_MODELS.

(** The [switch (model.encoding)]: the module each case imports. *)
Definition encodingModule (enc : string) : string :=
  (if String.eqb enc "o200k_base" then "gpt-tokenizer/encoding/o200k_base"
   else if String.eqb enc "cl100k_base" then "gpt-tokenizer/encoding/cl100k_base"
   else if String.eqb enc "p50k_base" then "gpt-tokenizer/encoding/p50k_base"
   else if String.eqb enc "r50k_base" then "gpt-tokenizer/encoding/r50k_base"
   else "gpt-tokenizer/encoding/cl100k_base")%string.

(** An imported tokenizer module: [encode] returns the token ids, or throws
    ([None]). *)
Record Tokenizer := mkTokenizer {
  encode : JsString.t -> option (list Z)
}.

(** The dynamic [import(...)] of the host: the module at a path, or a
    rejected promise ([None]). *)
Definition Loader := string -> option Tokenizer.

(** The two [console.error] sites of [calculateTokens]. *)
Inductive ErrorSite := EncodeFailed | TokensFailed.

(** What [calculateTokens] asks of its environment, in order. *)
Inductive Effect :=
| Import (path : string)
| SetTimeout (ms : Z)
| Encode (inputText : JsString.t)
| ConsoleError (site : ErrorSite).

Section Tokens.

Variable load : Loader.

(** [calculateTokens]: the value its promise resolves to and the effects
    performed on the way.  The promise never rejects: both failure paths are
    caught and resolve to [0]. *)
Definition calculateTokens (inputText : JsString.t) (modelValue : string)
  : Z * list Effect :=
  match findModel modelValue with
  | None => (0, [])
  | Some model =>
      let path := encodingModule (encoding model) in
      match load path with
      | None => (0, [Import path; ConsoleError TokensFailed])
      | Some tokenizer =>
          match encode tokenizer inputText with
          | Some ids =>
              (Z.of_nat (List.length ids),
               [Import path; SetTimeout 10; Encode inputText])
          | None =>
              (0, [Import path; SetTimeout 10; Encode inputText;
                   ConsoleError EncodeFailed])
          end
      end
  end.

(** [calculateStats]: the report its promise resolves to and the effects
    performed. *)
Definition calculateStats (inputText : JsString.t) (includeTokens : bool)
    (modelValue : string) : CharacterStats * list Effect :=
  if JsString.length inputText =? 0 then
    (emptyStats (if includeTokens then Some 0 else None), [])
  else if includeTokens then
    let '(n, effs) := calculateTokens inputText modelValue in
    (scanStats inputText (Some n), effs)
  else (scanStats inputText None, []).

(** The basic report, as [updateStats] asks for it:
    [calculateStats(inputText, false, selectedModel)]. *)
Definition computeBasicStatistics (inputText : JsString.t)
    (selectedModel : string) : CharacterStats :=
  fst (calculateStats inputText false selectedModel).

End Tokens.

(** ** The debounced scheduling of [updateStats] *)

(** The delay [updateStats] chooses from [inputText.length]. *)
Definition debounceDelay (textLength : Z) : Z :=
  if textLength >? 100000 then 2000
  else if textLength >? 50000 then 1000
  else if textLength >? 10000 then 600
  else 300.

(** The closure handed to [setTimeout] by one call of [updateStats]: the
    text of the call and the two state values the callback was built with. *)
Record Timer := mkTimer {
  t_inputText : JsString.t;
  t_enableTokenCount : bool;
  t_selectedModel : string;
  t_delay : Z
}.

(** A call of [calculateTokens] made by a timer callback, not yet resolved. *)
Record TokenJob := mkJob {
  j_inputText : JsString.t;
  j_selectedModel : string
}.

(** The component: the [stats] and [isCalculating] state cells, the timer
    held by [debounceTimeoutRef] while it has not fired, and the token
    computations in flight.  [published] and [fired] are histories kept for
    the statements only: every value written to [stats], latest first, and
    every timer whose callback has run, latest first. *)
Record Component := mkComponent {
  stats : CharacterStats;
  isCalculating : bool;
  debounceTimeoutRef : option Timer;
  pendingTokens : list TokenJob;
  published : list CharacterStats;
  fired : list Timer
}.

(** The state after mounting, before any call. *)
Definition mount : Component :=
  mkComponent (emptyStats None) false None [] [] [].

(** What can happen to the component: a call of [updateStats] (by a closure
    built with the given [enableTokenCount] and [selectedModel]), the pending
    timer firing, and the [i]-th token computation in flight resolving. *)
Inductive Event :=
| UpdateStats (inputText : JsString.t) (enableTokenCount : bool)
              (selectedModel : string)
| TimerFires
| TokensArrive (i : nat).

(** The list without its [i]-th element. *)
Fixpoint dropNth {A} (i : nat) (l : list A) : list A :=
  match l, i with
  | [], _ => []
  | _ :: r, O => r
  | x :: r, S j => x :: dropNth j r
  end.

Section Scheduling.

Variable load : Loader.

(** The synchronous body of [updateStats]: [clearTimeout] of the pending
    timer, the delay tiers, the calculating flag, the new [setTimeout]. *)
Definition updateStats (c : Component) (inputText : JsString.t)
    (enableTokenCount : bool) (selectedModel : string) : Component :=
  let textLength := JsString.length inputText in
  let delay := debounceDelay textLength in
  mkComponent (stats c)
    (if (textLength >? 10000) || enableTokenCount then true
     else isCalculating c)
    (Some (mkTimer inputText enableTokenCount selectedModel delay))
    (pendingTokens c) (published c) (fired c).

(** The timer callback up to its first suspension: the basic report is
    computed and written; with token counting on, the pending mark [-1] is
    written and [calculateTokens] is started, else the [finally] clears the
    calculating flag. *)
Definition timerCallback (c : Component) (tm : Timer) : Component :=
  let basicStats :=
    fst (calculateStats load (t_inputText tm) false (t_selectedModel tm)) in
  if t_enableTokenCount tm then
    mkComponent (withTokens basicStats (-1)) (isCalculating c) None
      (pendingTokens c ++ [mkJob (t_inputText tm) (t_selectedModel tm)])
      (withTokens basicStats (-1) :: basicStats :: published c)
      (tm :: fired c)
  else
    mkComponent basicStats false None (pendingTokens c)
      (basicStats :: published c) (tm :: fired c).

(** The rest of the callback, run when [calculateTokens] resolves:
    [setStats(prevStats => ({...prevStats, tokens}))], then the [finally]. *)
Definition tokensResolved (c : Component) (i : nat) (job : TokenJob)
  : Component :=
  let n := fst (calculateTokens load (j_inputText job) (j_selectedModel job)) in
  mkComponent (withTokens (stats c) n) false (debounceTimeoutRef c)
    (dropNth i (pendingTokens c))
    (withTokens (stats c) n :: published c) (fired c).

(** One event; [None] when the event cannot happen in this state. *)
Definition step (c : Component) (ev : Event) : option Component :=
  match ev with
  | UpdateStats inputText enableTokenCount selectedModel =>
      Some (updateStats c inputText enableTokenCount selectedModel)
  | TimerFires =>
      match debounceTimeoutRef c with
      | Some tm => Some (timerCallback c tm)
      | None => None
      end
  | TokensArrive i =>
      match nth_error (pendingTokens c) i with
      | Some job => Some (tokensResolved c i job)
      | None => None
      end
  end.

(** A sequence of events, in order. *)
Fixpoint run (c : Component) (evs : list Event) : option Component :=
  match evs with
  | [] => Some c
  | ev :: rest =>
      match step c ev with
      | Some c' => run c' rest
      | None => None
      end
  end.

End Scheduling.

(** ** Vocabulary of the statements *)

(** The number of units of [s] that satisfy [p]. *)
Fixpoint countIf (p : Z -> bool) (s : JsString.t) : Z :=
  match s with
  | [] => 0
  | c :: rest => (if p c then 1 else 0) + countIf p rest
  end.

(** The five classification counters of the report. *)
Inductive Bucket := Spaces | Numbers | EnglishChars | ChineseChars | Punctuation.

Definition Bucket_eqb (a b : Bucket) : bool :=
  match a, b with
  | Spaces, Spaces | Numbers, Numbers | EnglishChars, EnglishChars
  | ChineseChars, ChineseChars | Punctuation, Punctuation => true
  | _, _ => false
  end.

(** The counter one unit is added to by the second [if] of the scan, if any:
    the tests in the order the source tries them. *)
Definition classify (code : Z) : option Bucket :=
  if isSpace code then Some Spaces
  else if isDigit code then Some Numbers
  else if isEnglish code then Some EnglishChars
  else if isChinese code then Some ChineseChars
  else if isPunctuation code then Some Punctuation
  else None.

(** The unit is counted in bucket [b]. *)
Definition lands (b : Bucket) (code : Z) : bool :=
  match classify code with
  | Some b' => Bucket_eqb b' b
  | None => false
  end.

(** The unit is counted in some bucket. *)
Definition classified (code : Z) : bool :=
  match classify code with Some _ => true | None => false end.

(** The sum of the five classification counters of a report. *)
Definition bucketSum (r : CharacterStats) : Z :=
  chineseChars r + englishChars r + numbers r + punctuation r + spaces r.

(** The report without its [tokens] field: the basic counts. *)
Definition basicCounts (r : CharacterStats) : CharacterStats :=
  mkStats (totalChars r) (totalCharsNoSpaces r) (words r) (lines r)
          (paragraphs r) (chineseChars r) (englishChars r) (numbers r)
          (punctuation r) (spaces r) None.

(** The segments of a string between line feeds. *)
Fixpoint splitLines (s : JsString.t) : list JsString.t :=
  match s with
  | [] => [[]]
  | c :: rest =>
      if c =? LF then [] :: splitLines rest
      else match splitLines rest with
           | l :: ls => (c :: l) :: ls
           | [] => [[c]]
           end
  end.

(** A line with content: some unit other than space, tab, carriage return. *)
Definition nonBlank (l : JsString.t) : bool := existsb opensParagraph l.

(** The number of lines with content. *)
Definition nonBlankLines (s : JsString.t) : Z :=
  Z.of_nat (List.length (filter nonBlank (splitLines s))).

(** The number of maximal runs of consecutive [true] in a list, [prev]
    telling whether the element before the list was [true]. *)
Fixpoint countRuns (prev : bool) (bs : list bool) : Z :=
  match bs with
  | [] => 0
  | b :: rest => (if b && negb prev then 1 else 0) + countRuns b rest
  end.

(** Paragraphs as the specification words them: the maximal runs of
    non-blank lines. *)
Definition paragraphRuns (s : JsString.t) : Z :=
  countRuns false (map nonBlank (splitLines s)).

(** The lines with content of a text, when the scan enters it inside a
    paragraph ([open = true]) or outside of one. *)
Definition linesFrom (open : bool) (s : JsString.t) : Z :=
  match splitLines s with
  | l :: ls =>
      (if open || nonBlank l then 1 else 0)
      + Z.of_nat (List.length (filter nonBlank ls))
  | [] => 0
  end.

(** The counter of a report that a bucket names. *)
Definition bucket (b : Bucket) (r : CharacterStats) : Z :=
  match b with
  | Spaces => spaces r
  | Numbers => numbers r
  | EnglishChars => englishChars r
  | ChineseChars => chineseChars r
  | Punctuation => punctuation r
  end.

(** The text of the specification's sample: a, space, b, line feed, c. *)
Definition sampleText : JsString.t :=
  JsString.lit "a b" ++ [LF] ++ JsString.lit "c".

(** Two lines with content, separated by one line feed. *)
Definition twoLines : JsString.t :=
  JsString.lit "a" ++ [LF] ++ JsString.lit "b".

(** U+1F600, a character outside the Basic Multilingual Plane. *)
Definition grinningFace : Z := 128512.

(** The last call of [updateStats] in a sequence of events. *)
Fixpoint lastScheduled (evs : list Event) (acc : option TokenJob)
  : option TokenJob :=
  match evs with
  | [] => acc
  | UpdateStats inputText _ selectedModel :: rest =>
      lastScheduled rest (Some (mkJob inputText selectedModel))
  | _ :: rest => lastScheduled rest acc
  end.

(** The staleness property as the specification words it, for one sequence
    of events: a token count shown in the report after the sequence (the
    pending mark [-1] apart) is the count of the most recently scheduled
    cycle. *)
Definition latestCycleOnly (load : Loader) (evs : list Event) : Prop :=
  forall c n,
    run load mount evs = Some c ->
    tokens (stats c) = Some n ->
    n <> -1 ->
    exists job,
      lastScheduled evs None = Some job /\
      n = fst (calculateTokens load (j_inputText job) (j_selectedModel job)).

(** A cycle of the history that asked for tokens. *)
Definition tokenCycle (load : Loader) (tm : Timer) (n : Z) : Prop :=
  t_enableTokenCount tm = true /\
  n = fst (calculateTokens load (t_inputText tm) (t_selectedModel tm)).

(** The tokenizer of a model cannot be loaded, or its [encode] throws on the
    text. *)
Definition tokenizerFails (load : Loader) (inputText : JsString.t)
    (modelValue : string) : Prop :=
  exists model,
    findModel modelValue = Some model /\
    match load (encodingModule (encoding model)) with
    | None => True
    | Some tokenizer => encode tokenizer inputText = None
    end.

(** Two loaders for the examples: one whose imports are all rejected, and
    one whose every module encodes a text as one token per code unit. *)
Definition rejectingLoader : Loader := fun _ => None.

Definition unitLoader : Loader :=
  fun _ => Some (mkTokenizer (fun inputText => Some inputText)).

(** A loader whose modules load but whose [encode] always throws. *)
Definition throwingLoader : Loader :=
  fun _ => Some (mkTokenizer (fun _ => None)).

(** The basic report of the cycle whose timer fired last; the mounting
    values before any timer has fired. *)
Definition lastFiredReport (load : Loader) (c : Component) : CharacterStats :=
  match fired c with
  | [] => emptyStats None
  | tm :: _ => computeBasicStatistics load (t_inputText tm) (t_selectedModel tm)
  end.

(** The timer one call of [updateStats] sets. *)
Definition timerOf (inputText : JsString.t) (enableTokenCount : bool)
    (selectedModel : string) : Timer :=
  mkTimer inputText enableTokenCount selectedModel
          (debounceDelay (JsString.length inputText)).

(** What every reachable state of the component satisfies. *)
Record Consistent (load : Loader) (c : Component) : Prop := mkConsistent {
  basic_from_last_fired :
    basicCounts (stats c) = basicCounts (lastFiredReport load c);
  tokens_from_fired :
    forall n, tokens (stats c) = Some n ->
      n = -1 \/ exists tm, In tm (fired c) /\ tokenCycle load tm n;
  jobs_from_fired :
    forall job, In job (pendingTokens c) ->
      exists tm, In tm (fired c) /\ t_enableTokenCount tm = true /\
                 t_inputText tm = j_inputText job /\
                 t_selectedModel tm = j_selectedModel job
}.

(** Two cycles with token counting on, the second scheduled and fired while
    the tokens of the first are still being computed, which then arrive. *)
Definition staleTrace : list Event :=
  [ UpdateStats (JsString.lit "a") true "gpt-4o";
    TimerFires;
    UpdateStats (JsString.lit "bb") true "gpt-4o";
    TimerFires;
    TokensArrive 0 ].

(** A text of a given length: the letter a, [n] times. *)
Definition textOfLength (n : Z) : JsString.t := repeat 97 (Z.to_nat n).


(** ** Vocabulary of the further properties *)

(** Words as runs: the number of maximal runs of word characters. *)
Definition wordRuns (s : JsString.t) : Z :=
  countRuns false (map isWordChar s).

(** Two texts joined by one line feed. *)
Definition joinLines (a b : JsString.t) : JsString.t := a ++ LF :: b.

(** The arguments of one call of [updateStats]: the text and the two state
    values of the calling closure. *)
Definition Call : Type := JsString.t * bool * string.

(** A burst of calls of [updateStats], as events. *)
Definition scheduleAll (calls : list Call) : list Event :=
  map (fun '(inputText, en, model) => UpdateStats inputText en model) calls.

(** What the callback of a timer writes to [stats], oldest last. *)
Definition cyclePublications (load : Loader) (tm : Timer)
  : list CharacterStats :=
  let basic :=
    computeBasicStatistics load (t_inputText tm) (t_selectedModel tm) in
  if t_enableTokenCount tm then [withTokens basic (-1); basic] else [basic].

(** The token computation the callback of a timer starts, if any. *)
Definition cycleJobs (tm : Timer) : list TokenJob :=
  if t_enableTokenCount tm
  then [mkJob (t_inputText tm) (t_selectedModel tm)] else [].


(** The books of the publications: every timer fired has written the basic
    report once and, with token counting on, the pending mark once; every
    token computation started has written once, unless it is in flight. *)
Record Accounted (c : Component) : Prop := mkAccounted {
  publications_counted :
    Z.of_nat (List.length (published c))
    + Z.of_nat (List.length (pendingTokens c))
    = Z.of_nat (List.length (fired c))
      + 2 * Z.of_nat (List.length (filter t_enableTokenCount (fired c)));
  jobs_within_started :
    Z.of_nat (List.length (pendingTokens c))
    <= Z.of_nat (List.length (filter t_enableTokenCount (fired c)));
  stats_is_last_published :
    stats c = hd (emptyStats None) (published c)
}.

(** ** The page around the component

    The remaining state cells of [CharacterCounter] and the handlers that
    call [updateStats].  The two effects that call [updateStats] run after
    a render in which one of their dependencies changed; [updateStats] is a
    new closure exactly when [enableTokenCount] or [selectedModel] changed,
    so both effects run exactly when the text or one of these two changed
    since the effects last ran.  Effects of a render are run before a later
    state update is processed, so a handler finds no effect pending. *)













Section Page.

Variable load : Loader.




End Page.


(** A unit with content: neither a line feed nor a blank. *)
Definition isContent (code : Z) : bool :=
  negb (code =? LF) && opensParagraph code.

(** The text with its carriage returns removed. *)
Definition withoutCR (s : JsString.t) : JsString.t :=
  filter (fun c => negb (c =? CR)) s.

(** * Properties *)

(** Replaces every comparison of the goal by its outcome, given bounds on
    the compared value in the context. *)
Ltac settle_tests :=
  repeat match goal with
  | |- context [Z.eqb ?a ?b] =>
      destruct (Z.eqb_spec a b); [lia|]
  | |- context [Z.leb ?a ?b] =>
      destruct (Z.leb_spec a b); try lia
  end.


(** ** Counting *)

Lemma countIf_nonneg (p : Z -> bool) (s : JsString.t) : 0 <= countIf p s.
Proof. induction s as [|c rest IH]; simpl; [lia | destruct (p c); lia]. Qed.

Lemma countIf_split (p : Z -> bool) (s : JsString.t) :
  countIf p s + countIf (fun c => negb (p c)) s = JsString.length s.
Proof.
  unfold JsString.length.
  induction s as [|c rest IH]; [reflexivity|].
  cbn [countIf List.length]. rewrite Nat2Z.inj_succ.
  destruct (p c); cbn [negb]; lia.
Qed.

Lemma countIf_le (p q : Z -> bool) (s : JsString.t) :
  (forall c, p c = true -> q c = true) -> countIf p s <= countIf q s.
Proof.
  intros Hpq. induction s as [|c rest IH]; simpl; [lia|].
  destruct (p c) eqn:Hp; [rewrite (Hpq c Hp); lia|].
  destruct (q c); lia.
Qed.

Lemma countIf_ext (p q : Z -> bool) (s : JsString.t) :
  (forall c, p c = q c) -> countIf p s = countIf q s.
Proof.
  intros Hpq. induction s as [|c rest IH]; simpl; [reflexivity|].
  now rewrite Hpq, IH.
Qed.

(** Each unit lands in at most one bucket, so the five bucket counts add up
    to the count of classified units. *)
Lemma lands_sum (s : JsString.t) :
  countIf (lands ChineseChars) s + countIf (lands EnglishChars) s
  + countIf (lands Numbers) s + countIf (lands Punctuation) s
  + countIf (lands Spaces) s = countIf classified s.
Proof.
  induction s as [|c rest IH]; cbn [countIf]; [reflexivity|].
  assert (Hc : (if lands ChineseChars c then 1 else 0)
               + (if lands EnglishChars c then 1 else 0)
               + (if lands Numbers c then 1 else 0)
               + (if lands Punctuation c then 1 else 0)
               + (if lands Spaces c then 1 else 0)
               = if classified c then 1 else 0).
  { unfold lands, classified. destruct (classify c) as [[]|]; reflexivity. }
  lia.
Qed.

(** ** The first loop *)

(** What one iteration adds to each counter. *)
Lemma scanStep_counters (st : Scan) (c : Z) :
  let st' := scanStep st c in
  s_spaces st' = s_spaces st + (if lands Spaces c then 1 else 0) /\
  s_numbers st' = s_numbers st + (if lands Numbers c then 1 else 0) /\
  s_englishChars st' = s_englishChars st + (if lands EnglishChars c then 1 else 0) /\
  s_chineseChars st' = s_chineseChars st + (if lands ChineseChars c then 1 else 0) /\
  s_punctuation st' = s_punctuation st + (if lands Punctuation c then 1 else 0) /\
  s_lines st' = s_lines st + (if c =? LF then 1 else 0).
Proof.
  unfold scanStep, scanClass, scanLine, lands, classify.
  destruct (c =? LF), (opensParagraph c), (isSpace c), (isDigit c),
    (isEnglish c), (isChinese c), (isPunctuation c); simpl; lia.
Qed.

(** What the whole loop adds to each counter. *)
Lemma scanLoop_counters (s : JsString.t) : forall st : Scan,
  let st' := scanLoop st s in
  s_spaces st' = s_spaces st + countIf (lands Spaces) s /\
  s_numbers st' = s_numbers st + countIf (lands Numbers) s /\
  s_englishChars st' = s_englishChars st + countIf (lands EnglishChars) s /\
  s_chineseChars st' = s_chineseChars st + countIf (lands ChineseChars) s /\
  s_punctuation st' = s_punctuation st + countIf (lands Punctuation) s /\
  s_lines st' = s_lines st + countIf (fun c => c =? LF) s.
Proof.
  induction s as [|c rest IH]; intros st; cbn zeta.
  - simpl. lia.
  - unfold scanLoop in *. cbn [fold_left countIf].
    specialize (IH (scanStep st c)). cbn zeta in IH.
    pose proof (scanStep_counters st c) as Hc. cbn zeta in Hc.
    lia.
Qed.

(** The paragraph bookkeeping of one iteration. *)
Lemma scanStep_paragraph (st : Scan) (c : Z) :
  let st' := scanStep st c in
  if c =? LF then
    s_inParagraph st' = false /\ s_paragraphs st' = closeParagraph st
  else
    s_inParagraph st' = s_inParagraph st || opensParagraph c /\
    s_paragraphs st' = s_paragraphs st.
Proof.
  unfold scanStep, scanClass, scanLine, closeParagraph.
  destruct (c =? LF), (opensParagraph c), (isSpace c), (isDigit c),
    (isEnglish c), (isChinese c), (isPunctuation c), (s_inParagraph st);
    simpl; auto.
Qed.

Lemma splitLines_cons (s : JsString.t) :
  exists l ls, splitLines s = l :: ls.
Proof.
  induction s as [|c rest [l [ls IH]]]; simpl; [now eauto|].
  destruct (c =? LF); [now eauto|]. rewrite IH. now eauto.
Qed.

Lemma linesFrom_false (s : JsString.t) : linesFrom false s = nonBlankLines s.
Proof.
  unfold linesFrom, nonBlankLines.
  destruct (splitLines_cons s) as [l [ls ->]]. cbn [filter orb].
  destruct (nonBlank l); cbn [List.length]; lia.
Qed.

(** The paragraphs counted by the loop and the closing test after it. *)
Lemma scanLoop_paragraphs (s : JsString.t) : forall st : Scan,
  closeParagraph (scanLoop st s)
  = s_paragraphs st + linesFrom (s_inParagraph st) s.
Proof.
  induction s as [|c rest IH]; intros st.
  - unfold scanLoop, linesFrom, closeParagraph. simpl.
    destruct (s_inParagraph st); simpl; lia.
  - unfold scanLoop in *. cbn [fold_left]. rewrite IH.
    pose proof (scanStep_paragraph st c) as Hp. cbn zeta in Hp.
    unfold linesFrom. cbn [splitLines].
    destruct (splitLines_cons rest) as [l [ls Hl]]. rewrite Hl.
    destruct (c =? LF).
    + destruct Hp as [-> ->]. unfold closeParagraph.
      cbn [orb nonBlank existsb filter].
      destruct (s_inParagraph st), (nonBlank l); cbn [List.length orb]; lia.
    + destruct Hp as [-> ->]. cbn [nonBlank existsb].
      fold (nonBlank l).
      destruct (s_inParagraph st), (opensParagraph c), (nonBlank l);
        cbn [orb]; lia.
Qed.

(** ** The basic report *)

Lemma length_cons_nonzero (c : Z) (rest : JsString.t) :
  (JsString.length (c :: rest) =? 0) = false.
Proof. unfold JsString.length. apply Z.eqb_neq. cbn [List.length]. lia. Qed.

(** The two paths of [calculateStats] without tokens. *)
Lemma computeBasicStatistics_cases (load : Loader) (s : JsString.t)
    (model : string) :
  computeBasicStatistics load s model
  = match s with [] => emptyStats None | _ :: _ => scanStats s None end.
Proof.
  unfold computeBasicStatistics, calculateStats.
  destruct s as [|c rest]; [reflexivity|].
  now rewrite length_cons_nonzero.
Qed.

(** Every field of the basic report, in terms of the text. *)
Lemma report_fields (load : Loader) (s : JsString.t) (model : string) :
  let r := computeBasicStatistics load s model in
  totalChars r = JsString.length s /\
  totalCharsNoSpaces r = JsString.length s - countIf (lands Spaces) s /\
  (forall b, bucket b r = countIf (lands b) s) /\
  paragraphs r = nonBlankLines s /\
  lines r = match s with [] => 0 | _ :: _ => 1 + countIf (fun c => c =? LF) s end /\
  tokens r = None.
Proof.
  cbn zeta. rewrite computeBasicStatistics_cases.
  destruct s as [|c rest].
  - repeat split; try reflexivity. intros []; reflexivity.
  - set (s := c :: rest).
    pose proof (scanLoop_counters s scanInit) as Hc. cbn zeta in Hc.
    pose proof (scanLoop_paragraphs s scanInit) as Hp.
    rewrite linesFrom_false in Hp.
    unfold scanStats. cbn [totalChars totalCharsNoSpaces paragraphs lines tokens].
    cbn [scanInit s_spaces s_numbers s_englishChars s_chineseChars
         s_punctuation s_lines s_paragraphs s_inParagraph] in Hc, Hp.
    repeat split; try lia.
    intros []; cbn [bucket spaces numbers englishChars chineseChars punctuation];
      lia.
Qed.

Lemma lands_Spaces (c : Z) : lands Spaces c = ((c =? SP) || (c =? TAB)).
Proof.
  unfold lands, classify. fold (isSpace c).
  destruct (isSpace c), (isDigit c), (isEnglish c), (isChinese c),
    (isPunctuation c); reflexivity.
Qed.

(** ** Claims about [calculateStats] *)

(** C2, as stated, fails: for the empty string the report has [lines = 0],
    not [1]. *)
Lemma C2_empty_lines_is_not_one :
  lines (computeBasicStatistics rejectingLoader [] "gpt-3.5-turbo") <> 1.
Proof. vm_compute. discriminate. Qed.

(** C2, amended: for the empty string [calculateStats] takes its early
    return and every count of the report is 0, [lines] included; no token
    field is set. *)
Theorem C2_empty_report_all_zero (load : Loader) (model : string) :
  computeBasicStatistics load [] model
  = mkStats 0 0 0 0 0 0 0 0 0 0 None.
Proof. reflexivity. Qed.

(** C3, as stated, fails: two lines with content separated by a single line
    feed form one maximal run of non-blank lines, and the report counts two
    paragraphs. *)
Lemma C3_two_lines_two_paragraphs :
  paragraphRuns twoLines = 1 /\
  paragraphs (computeBasicStatistics rejectingLoader twoLines "gpt-3.5-turbo") = 2 /\
  paragraphs (computeBasicStatistics rejectingLoader twoLines "gpt-3.5-turbo")
  <> paragraphRuns twoLines.
Proof. vm_compute. repeat split; discriminate. Qed.

(** C3, amended: for every input the [paragraphs] field is the number of
    lines (segments between line feeds) that hold at least one character
    other than space, tab and carriage return; a paragraph ends at every
    line feed, and one still open at the end of the input is counted. *)
Theorem C3_paragraphs_are_nonblank_lines (load : Loader) (s : JsString.t)
    (model : string) :
  paragraphs (computeBasicStatistics load s model) = nonBlankLines s.
Proof. apply (report_fields load s model). Qed.

(** C4, as stated, fails: a text of one scalar value outside the Basic
    Multilingual Plane has [totalChars = 2]. *)
Lemma C4_astral_counts_two :
  forallb JsString.is_scalar [grinningFace] = true /\
  totalChars (computeBasicStatistics rejectingLoader
                (JsString.of_scalars [grinningFace]) "gpt-3.5-turbo")
  <> Z.of_nat (List.length [grinningFace]).
Proof. vm_compute. split; [reflexivity | discriminate]. Qed.

Lemma length_app (a b : JsString.t) :
  JsString.length (a ++ b) = JsString.length a + JsString.length b.
Proof. unfold JsString.length. rewrite List.length_app. lia. Qed.

Lemma utf16_encode_length (cp : Z) :
  JsString.length (JsString.utf16_encode cp)
  = 1 + (if JsString.astral cp then 1 else 0).
Proof.
  unfold JsString.utf16_encode, JsString.astral.
  destruct (Z.ltb_spec cp 65536), (Z.leb_spec 65536 cp);
    try lia; reflexivity.
Qed.

Lemma of_scalars_length (cps : list Z) :
  JsString.length (JsString.of_scalars cps)
  = Z.of_nat (List.length cps) + countIf JsString.astral cps.
Proof.
  induction cps as [|cp rest IH]; [reflexivity|].
  unfold JsString.of_scalars in *. cbn [flat_map countIf List.length].
  rewrite length_app, utf16_encode_length, IH, Nat2Z.inj_succ. lia.
Qed.

(** A surrogate code unit fails every test of the classification. *)
Lemma classify_surrogate (u : Z) :
  55296 <= u <= 57343 -> classify u = None.
Proof.
  intros Hu.
  unfold classify, isSpace, isDigit, isEnglish, isChinese, isPunctuation,
    punctuationTest, punctuationClass, SP, TAB, LF, CR.
  cbn [existsb]. settle_tests. reflexivity.
Qed.

(** The two code units of a scalar value outside the Basic Multilingual
    Plane are surrogates. *)
Lemma utf16_encode_astral (cp : Z) :
  JsString.is_scalar cp = true -> JsString.astral cp = true ->
  exists hi lo, JsString.utf16_encode cp = [hi; lo] /\
                55296 <= hi <= 56319 /\ 56320 <= lo <= 57343.
Proof.
  unfold JsString.is_scalar, JsString.astral, JsString.utf16_encode.
  intros Hs Ha. apply Z.leb_le in Ha.
  apply andb_prop in Hs as [Hs _]. apply andb_prop in Hs as [_ Hmax].
  apply Z.leb_le in Hmax.
  destruct (Z.ltb_spec cp 65536); [lia|].
  eexists _, _. split; [reflexivity|].
  rewrite Z.shiftr_div_pow2 by lia.
  change 1023 with (Z.ones 10). rewrite Z.land_ones by lia.
  change (2 ^ 10) with 1024.
  pose proof (Z.div_pos (cp - 65536) 1024 ltac:(lia) ltac:(lia)).
  pose proof (Z.div_lt_upper_bound (cp - 65536) 1024 1024 ltac:(lia) ltac:(lia)).
  pose proof (Z.mod_pos_bound (cp - 65536) 1024 ltac:(lia)).
  lia.
Qed.

(** C4, amended: [totalChars] is [inputText.length], the number of UTF-16
    code units, and the scan looks at one code unit at a time.  For a text
    given by its scalar values this is their number plus one more for each
    value outside the Basic Multilingual Plane: such a character (an emoji)
    contributes 2 to [totalChars], and neither of its two units is counted
    in a classification bucket. *)
Theorem C4_totalChars_counts_code_units (load : Loader) (model : string) :
  (forall s, totalChars (computeBasicStatistics load s model)
             = JsString.length s) /\
  (forall cps,
     totalChars (computeBasicStatistics load (JsString.of_scalars cps) model)
     = Z.of_nat (List.length cps) + countIf JsString.astral cps) /\
  (forall cp,
     JsString.is_scalar cp = true -> JsString.astral cp = true ->
     let r := computeBasicStatistics load (JsString.of_scalars [cp]) model in
     totalChars r = 2 /\ bucketSum r = 0).
Proof.
  split; [|split].
  - intros s. apply (report_fields load s model).
  - intros cps.
    destruct (report_fields load (JsString.of_scalars cps) model) as [-> _].
    apply of_scalars_length.
  - intros cp Hs Ha r.
    destruct (report_fields load (JsString.of_scalars [cp]) model)
      as (Ht & _ & Hb & _).
    fold r in Ht, Hb. split.
    + rewrite Ht, of_scalars_length. cbn [countIf List.length].
      rewrite Ha. reflexivity.
    + unfold bucketSum.
      pose proof (Hb ChineseChars) as H1. pose proof (Hb EnglishChars) as H2.
      pose proof (Hb Numbers) as H3. pose proof (Hb Punctuation) as H4.
      pose proof (Hb Spaces) as H5. cbn [bucket] in H1, H2, H3, H4, H5.
      rewrite H1, H2, H3, H4, H5, lands_sum.
      destruct (utf16_encode_astral cp Hs Ha) as (hi & lo & He & Hhi & Hlo).
      unfold JsString.of_scalars. cbn [flat_map]. rewrite He.
      cbn [app countIf]. unfold classified.
      rewrite (classify_surrogate hi), (classify_surrogate lo) by lia.
      reflexivity.
Qed.

(** The amended C4 at U+1F600. *)
Lemma C4_totalChars_counts_code_units_witness :
  JsString.is_scalar grinningFace = true /\
  JsString.astral grinningFace = true /\
  totalChars (computeBasicStatistics rejectingLoader
                (JsString.of_scalars [grinningFace]) "gpt-3.5-turbo") = 2 /\
  bucketSum (computeBasicStatistics rejectingLoader
               (JsString.of_scalars [grinningFace]) "gpt-3.5-turbo") = 0.
Proof.
  split; [reflexivity|]. split; [reflexivity|].
  apply (proj2 (proj2 (C4_totalChars_counts_code_units rejectingLoader
                         "gpt-3.5-turbo")) grinningFace);
    reflexivity.
Defined.

(** C5: for every input, [totalChars = totalCharsNoSpaces + spaces], and the
    five classification counters together do not exceed [totalChars]. *)
Theorem C5_report_invariants (load : Loader) (s : JsString.t)
    (model : string) :
  let r := computeBasicStatistics load s model in
  totalChars r = totalCharsNoSpaces r + spaces r /\
  chineseChars r + englishChars r + numbers r + punctuation r + spaces r
  <= totalChars r.
Proof.
  cbn zeta.
  destruct (report_fields load s model) as (Ht & Hn & Hb & _).
  pose proof (Hb ChineseChars) as H1. pose proof (Hb EnglishChars) as H2.
  pose proof (Hb Numbers) as H3. pose proof (Hb Punctuation) as H4.
  pose proof (Hb Spaces) as H5. cbn [bucket] in H1, H2, H3, H4, H5.
  split; [lia|].
  rewrite H1, H2, H3, H4, H5, lands_sum, Ht.
  pose proof (countIf_split classified s).
  pose proof (countIf_nonneg (fun c => negb (classified c)) s).
  lia.
Qed.

(** C7, as stated, fails: the sample holds one space, and the line feed is
    not counted as a space, so [spaces] is 1 and not 2. *)
Lemma C7_sample_spaces_is_not_two :
  spaces (computeBasicStatistics rejectingLoader sampleText "gpt-3.5-turbo")
  <> 2.
Proof. vm_compute. discriminate. Qed.

(** C7, amended: on the 5-character input a, space, b, line feed, c the
    report has totalChars=5, spaces=1, englishChars=3, lines=2, words=3 and
    paragraphs=2 (and totalCharsNoSpaces=4, the other counters 0). *)
Theorem C7_sample_report (load : Loader) (model : string) :
  computeBasicStatistics load sampleText model
  = mkStats 5 4 3 2 2 0 3 0 0 1 None.
Proof. reflexivity. Qed.

(** C9: only the space and the tab are counted as spaces; no line feed and
    no carriage return is counted in any of the five buckets, and each of them
    is counted in [totalCharsNoSpaces], which is the number of units other
    than space and tab. *)
Theorem C9_line_breaks_are_not_spaces (load : Loader) (s : JsString.t)
    (model : string) :
  let r := computeBasicStatistics load s model in
  spaces r = countIf (fun c => (c =? SP) || (c =? TAB)) s /\
  (forall b, bucket b r = countIf (lands b) s /\
             lands b LF = false /\ lands b CR = false) /\
  totalCharsNoSpaces r = countIf (fun c => negb ((c =? SP) || (c =? TAB))) s /\
  countIf (fun c => (c =? LF) || (c =? CR)) s <= totalCharsNoSpaces r.
Proof.
  cbn zeta.
  destruct (report_fields load s model) as (Ht & Hn & Hb & _).
  assert (Hsp : countIf (lands Spaces) s
                = countIf (fun c => (c =? SP) || (c =? TAB)) s)
    by (apply countIf_ext, lands_Spaces).
  assert (Hno : totalCharsNoSpaces (computeBasicStatistics load s model)
                = countIf (fun c => negb ((c =? SP) || (c =? TAB))) s).
  { rewrite Hn, Hsp.
    pose proof (countIf_split (fun c => (c =? SP) || (c =? TAB)) s) as Hs.
    cbv beta in Hs. lia. }
  split; [|split; [|split]].
  - rewrite <- Hsp. apply (Hb Spaces).
  - intros b. split; [apply Hb|]. destruct b; split; reflexivity.
  - exact Hno.
  - rewrite Hno. apply countIf_le. intros c Hc.
    unfold SP, TAB, LF, CR in *.
    destruct (Z.eqb_spec c 10), (Z.eqb_spec c 13), (Z.eqb_spec c 32),
      (Z.eqb_spec c 9); try lia; try reflexivity; discriminate.
Qed.

(** ** Claims about [calculateTokens] *)

Lemma findModel_unknown (modelValue : string) :
  ~ In modelValue (map value SUPPORTED_MODELS) -> findModel modelValue = None.
Proof.
  intros Hout. unfold findModel.
  destruct (find _ SUPPORTED_MODELS) as [m|] eqn:Hf; [|reflexivity].
  apply find_some in Hf as [Hin Heq]. apply String.eqb_eq in Heq.
  exfalso. apply Hout. rewrite <- Heq. now apply in_map.
Qed.

(** A failing tokenizer makes [calculateTokens] resolve to 0, with the cause
    sent to [console.error]. *)
Lemma calculateTokens_failure (load : Loader) (inputText : JsString.t)
    (modelValue : string) :
  tokenizerFails load inputText modelValue ->
  fst (calculateTokens load inputText modelValue) = 0 /\
  exists site,
    In (ConsoleError site) (snd (calculateTokens load inputText modelValue)).
Proof.
  intros (model & Hfind & Hfail). unfold calculateTokens. rewrite Hfind.
  destruct (load (encodingModule (encoding model))) as [tokenizer|].
  - rewrite Hfail. split; [reflexivity|].
    exists EncodeFailed. cbn [snd In]. auto.
  - split; [reflexivity|]. exists TokensFailed. cbn [snd In]. auto.
Qed.

(** C10: for every text and every model identifier outside
    [SUPPORTED_MODELS], [calculateTokens] resolves to 0 and performs no
    effect: no import, no call of [encode], no error logged. *)
Theorem C10_unknown_model_counts_zero (load : Loader) (inputText : JsString.t)
    (modelValue : string) :
  ~ In modelValue (map value SUPPORTED_MODELS) ->
  calculateTokens load inputText modelValue = (0, []).
Proof.
  intros Hout. unfold calculateTokens.
  now rewrite (findModel_unknown modelValue Hout).
Qed.

(** C10 at the identifier gpt-5, with a working tokenizer at hand. *)
Lemma C10_unknown_model_counts_zero_witness :
  calculateTokens unitLoader (JsString.lit "hello") "gpt-5" = (0, []).
Proof.
  apply (C10_unknown_model_counts_zero unitLoader (JsString.lit "hello") "gpt-5").
  cbn [map SUPPORTED_MODELS value]. intros H.
  repeat (destruct H as [H|H]; [discriminate H|]). exact H.
Defined.

(** ** Claims about [updateStats] *)

Lemma textOfLength_length (n : Z) :
  0 <= n -> JsString.length (textOfLength n) = n.
Proof.
  intros Hn. unfold JsString.length, textOfLength.
  rewrite repeat_length. now apply Z2Nat.id.
Qed.

(** C6: every call of [updateStats] sets a timer whose delay follows the
    tiers of the length of the text of the call: above 100,000 it is 2000 ms,
    from 50,001 to 100,000 it is 1000 ms, from 10,001 to 50,000 it is 600 ms,
    up to 10,000 it is 300 ms; so lengths 10,000, 10,001, 50,001 and 100,001
    give 300, 600, 1000 and 2000 ms. *)
Theorem C6_delay_tiers (c : Component) (inputText : JsString.t)
    (enableTokenCount : bool) (selectedModel : string) :
  let n := JsString.length inputText in
  exists tm,
    debounceTimeoutRef (updateStats c inputText enableTokenCount selectedModel)
    = Some tm /\
    t_inputText tm = inputText /\
    (100000 < n -> t_delay tm = 2000) /\
    (50001 <= n <= 100000 -> t_delay tm = 1000) /\
    (10001 <= n <= 50000 -> t_delay tm = 600) /\
    (n <= 10000 -> t_delay tm = 300) /\
    (n = 10000 -> t_delay tm = 300) /\
    (n = 10001 -> t_delay tm = 600) /\
    (n = 50001 -> t_delay tm = 1000) /\
    (n = 100001 -> t_delay tm = 2000).
Proof.
  cbn zeta. eexists. split; [reflexivity|]. cbn [t_inputText t_delay].
  unfold debounceDelay.
  destruct (Z.gtb_spec (JsString.length inputText) 100000),
    (Z.gtb_spec (JsString.length inputText) 50000),
    (Z.gtb_spec (JsString.length inputText) 10000);
    repeat split; intros; try reflexivity; lia.
Qed.

(** C6 at the four boundary lengths. *)
Lemma C6_delay_tiers_witness :
  option_map t_delay
    (debounceTimeoutRef (updateStats mount (textOfLength 10000) false "gpt-4o"))
  = Some 300 /\
  option_map t_delay
    (debounceTimeoutRef (updateStats mount (textOfLength 10001) false "gpt-4o"))
  = Some 600 /\
  option_map t_delay
    (debounceTimeoutRef (updateStats mount (textOfLength 50001) false "gpt-4o"))
  = Some 1000 /\
  option_map t_delay
    (debounceTimeoutRef (updateStats mount (textOfLength 100001) false "gpt-4o"))
  = Some 2000.
Proof.
  split; [|split; [|split]].
  - destruct (C6_delay_tiers mount (textOfLength 10000) false "gpt-4o")
      as (tm & -> & _ & _ & _ & _ & _ & H & _).
    cbn [option_map]. f_equal. apply H. apply textOfLength_length. lia.
  - destruct (C6_delay_tiers mount (textOfLength 10001) false "gpt-4o")
      as (tm & -> & _ & _ & _ & _ & _ & _ & H & _).
    cbn [option_map]. f_equal. apply H. apply textOfLength_length. lia.
  - destruct (C6_delay_tiers mount (textOfLength 50001) false "gpt-4o")
      as (tm & -> & _ & _ & _ & _ & _ & _ & _ & H & _).
    cbn [option_map]. f_equal. apply H. apply textOfLength_length. lia.
  - destruct (C6_delay_tiers mount (textOfLength 100001) false "gpt-4o")
      as (tm & -> & _ & _ & _ & _ & _ & _ & _ & _ & H).
    cbn [option_map]. f_equal. apply H. apply textOfLength_length. lia.
Defined.

(** ** The component across events *)

Lemma basicCounts_withTokens (r : CharacterStats) (n : Z) :
  basicCounts (withTokens r n) = basicCounts r.
Proof. reflexivity. Qed.

Lemma computeBasicStatistics_tokens (load : Loader) (s : JsString.t)
    (model : string) :
  tokens (computeBasicStatistics load s model) = None.
Proof. apply (report_fields load s model). Qed.


Lemma In_dropNth {A} (x : A) (l : list A) : forall i,
  In x (dropNth i l) -> In x l.
Proof.
  induction l as [|y rest IH]; intros i Hin; [destruct i; exact Hin|].
  destruct i as [|j]; cbn [dropNth] in Hin.
  - now right.
  - destruct Hin as [->|Hin]; [now left | right; eapply IH; eauto].
Qed.

Lemma Consistent_mount (load : Loader) : Consistent load mount.
Proof.
  constructor.
  - reflexivity.
  - cbn. discriminate.
  - cbn. contradiction.
Qed.

Lemma Consistent_updateStats (load : Loader) (c : Component)
    (inputText : JsString.t) (en : bool) (model : string) :
  Consistent load c -> Consistent load (updateStats c inputText en model).
Proof. intros [Ha Hb Hc]. constructor; assumption. Qed.

Lemma Consistent_timerCallback (load : Loader) (c : Component) (tm : Timer) :
  Consistent load c -> Consistent load (timerCallback load c tm).
Proof.
  intros [Ha Hb Hc]. unfold timerCallback.
  fold (computeBasicStatistics load (t_inputText tm) (t_selectedModel tm)).
  destruct (t_enableTokenCount tm) eqn:Hen; constructor;
    unfold lastFiredReport; cbn [stats fired pendingTokens].
  - apply basicCounts_withTokens.
  - cbn [withTokens tokens]. intros n [= <-]. now left.
  - intros job Hin. apply in_app_or in Hin as [Hin|[<-|[]]].
    + destruct (Hc job Hin) as (tm' & Hin' & Hrest).
      exists tm'. split; [now right | exact Hrest].
    + exists tm. cbn [j_inputText j_selectedModel].
      split; [now left|]. split; [exact Hen|]. split; reflexivity.
  - reflexivity.
  - rewrite computeBasicStatistics_tokens. discriminate.
  - intros job Hin. destruct (Hc job Hin) as (tm' & Hin' & Hrest).
    exists tm'. split; [now right | exact Hrest].
Qed.

Lemma Consistent_tokensResolved (load : Loader) (c : Component) (i : nat)
    (job : TokenJob) :
  nth_error (pendingTokens c) i = Some job ->
  Consistent load c -> Consistent load (tokensResolved load c i job).
Proof.
  intros Hjob [Ha Hb Hc]. apply nth_error_In in Hjob.
  constructor; unfold lastFiredReport, tokensResolved in *;
    cbn [stats fired pendingTokens].
  - rewrite basicCounts_withTokens. exact Ha.
  - cbn [withTokens tokens]. intros n [= <-]. right.
    destruct (Hc job Hjob) as (tm & Hin & Hen & Htext & Hmodel).
    exists tm. split; [exact Hin|]. split; [exact Hen|].
    now rewrite Htext, Hmodel.
  - intros job' Hin. apply In_dropNth in Hin. now apply Hc.
Qed.

Lemma Consistent_step (load : Loader) (c c' : Component) (ev : Event) :
  Consistent load c -> step load c ev = Some c' -> Consistent load c'.
Proof.
  intros Hc Hstep. destruct ev as [inputText en model| |i]; cbn [step] in Hstep.
  - injection Hstep as <-. now apply Consistent_updateStats.
  - destruct (debounceTimeoutRef c) as [tm|]; [|discriminate].
    injection Hstep as <-. now apply Consistent_timerCallback.
  - destruct (nth_error (pendingTokens c) i) as [job|] eqn:Hjob; [|discriminate].
    injection Hstep as <-. now apply Consistent_tokensResolved.
Qed.

Lemma Consistent_run (load : Loader) (evs : list Event) : forall c c',
  Consistent load c -> run load c evs = Some c' -> Consistent load c'.
Proof.
  induction evs as [|ev rest IH]; intros c c' Hc Hrun; cbn [run] in Hrun.
  - now injection Hrun as <-.
  - destruct (step load c ev) as [c1|] eqn:Hstep; [|discriminate].
    eapply IH; [|exact Hrun]. eapply Consistent_step; eauto.
Qed.

(** C1, as stated, fails: after [staleTrace] the most recently scheduled
    cycle is the one of the two-unit text, whose token count is 2, and the
    report shows the token count 1 of the superseded cycle, next to the
    basic counts of the newer one. *)
Lemma C1_stale_tokens_are_published :
  ~ latestCycleOnly unitLoader staleTrace.
Proof.
  intros Hclaim.
  assert (Hrun : exists c, run unitLoader mount staleTrace = Some c /\
                           tokens (stats c) = Some 1)
    by (eexists; split; vm_compute; reflexivity).
  destruct Hrun as (c & Hrun & Htok).
  destruct (Hclaim c 1 Hrun Htok ltac:(discriminate)) as (job & Hlast & Hn).
  cbn in Hlast. injection Hlast as <-. vm_compute in Hn. discriminate.
Qed.

(** The report after [staleTrace]: the counts of the two-unit text with the
    token count of the one-unit text. *)
Example staleTrace_report :
  option_map stats (run unitLoader mount staleTrace)
  = Some (mkStats 2 2 1 1 1 0 2 0 0 0 (Some 1)) /\
  fst (calculateTokens unitLoader (JsString.lit "bb") "gpt-4o") = 2.
Proof. split; vm_compute; reflexivity. Qed.

(** C1, amended: there is no generation number.  A call of [updateStats]
    replaces the pending timer and touches neither the report nor the token
    computations in flight; each computation in flight writes its count into
    the report when it resolves, whatever has been scheduled or has fired
    since, changing the [tokens] field only.  So after any sequence of
    events the basic counts of the report are those of the cycle that fired
    last, and a token count in it is the pending mark or the count of some
    cycle that fired with token counting on, not always the latest. *)
Theorem C1_tokens_merge_without_generation_check (load : Loader)
    (evs : list Event) (c : Component) :
  run load mount evs = Some c ->
  basicCounts (stats c) = basicCounts (lastFiredReport load c) /\
  (forall n, tokens (stats c) = Some n ->
     n = -1 \/ exists tm, In tm (fired c) /\ tokenCycle load tm n) /\
  (forall i job, nth_error (pendingTokens c) i = Some job ->
     exists c', step load c (TokensArrive i) = Some c' /\
       stats c' = withTokens (stats c)
                    (fst (calculateTokens load (j_inputText job)
                            (j_selectedModel job)))) /\
  (forall inputText en model,
     exists c', step load c (UpdateStats inputText en model) = Some c' /\
       debounceTimeoutRef c' = Some (timerOf inputText en model) /\
       stats c' = stats c /\ pendingTokens c' = pendingTokens c /\
       published c' = published c /\ fired c' = fired c).
Proof.
  intros Hrun.
  destruct (Consistent_run load evs mount c (Consistent_mount load) Hrun)
    as [Ha Hb _].
  split; [exact Ha|]. split; [exact Hb|]. split.
  - intros i job Hjob. eexists. cbn [step]. rewrite Hjob.
    split; reflexivity.
  - intros inputText en model. eexists. cbn [step].
    split; [reflexivity|]. repeat split.
Qed.

(** The amended C1 on [staleTrace]. *)
Lemma C1_tokens_merge_without_generation_check_witness :
  exists c,
    run unitLoader mount staleTrace = Some c /\
    basicCounts (stats c) = basicCounts (lastFiredReport unitLoader c).
Proof.
  eexists. split; [vm_compute; reflexivity|].
  apply (C1_tokens_merge_without_generation_check unitLoader staleTrace).
  vm_compute. reflexivity.
Defined.

(** C8: when the tokenizer of the selected model cannot be loaded, or its
    [encode] throws, [calculateTokens] resolves to 0 and logs the cause.  In
    the cycle of [updateStats] the basic report is published before the
    token computation starts, and the failed computation only sets [tokens]
    to 0 in the report: the basic counts stay as published, whenever the
    result arrives. *)
Theorem C8_tokenizer_failure_is_isolated (load : Loader)
    (inputText : JsString.t) (modelValue : string) :
  tokenizerFails load inputText modelValue ->
  let basic := computeBasicStatistics load inputText modelValue in
  fst (calculateTokens load inputText modelValue) = 0 /\
  (exists site,
     In (ConsoleError site) (snd (calculateTokens load inputText modelValue))) /\
  (forall c delay,
     debounceTimeoutRef c = Some (mkTimer inputText true modelValue delay) ->
     exists c1 c2,
       step load c TimerFires = Some c1 /\
       published c1 = withTokens basic (-1) :: basic :: published c /\
       step load c1 (TokensArrive (List.length (pendingTokens c))) = Some c2 /\
       stats c2 = withTokens basic 0) /\
  (forall c i,
     nth_error (pendingTokens c) i = Some (mkJob inputText modelValue) ->
     exists c',
       step load c (TokensArrive i) = Some c' /\
       stats c' = withTokens (stats c) 0 /\
       basicCounts (stats c') = basicCounts (stats c)).
Proof.
  intros Hfail basic.
  destruct (calculateTokens_failure load inputText modelValue Hfail)
    as [Hzero Hlog].
  split; [exact Hzero|]. split; [exact Hlog|]. split.
  - intros c delay Htimer.
    eexists _, _. cbn [step]. rewrite Htimer.
    split; [reflexivity|]. unfold timerCallback.
    cbn [t_enableTokenCount t_inputText t_selectedModel published pendingTokens].
    split; [reflexivity|].
    rewrite nth_error_app2 by lia. rewrite Nat.sub_diag. cbn [nth_error].
    split; [reflexivity|].
    unfold tokensResolved. cbn [stats j_inputText j_selectedModel].
    rewrite Hzero. reflexivity.
  - intros c i Hjob. eexists. cbn [step]. rewrite Hjob.
    split; [reflexivity|]. unfold tokensResolved.
    cbn [stats j_inputText j_selectedModel]. rewrite Hzero.
    split; reflexivity.
Qed.

(** C8 with a loader that rejects every import, and with one whose [encode]
    throws. *)
Lemma C8_tokenizer_failure_is_isolated_witness :
  fst (calculateTokens rejectingLoader (JsString.lit "hello") "gpt-4o") = 0 /\
  fst (calculateTokens throwingLoader (JsString.lit "hello") "gpt-4") = 0.
Proof.
  split.
  - apply (C8_tokenizer_failure_is_isolated rejectingLoader
             (JsString.lit "hello") "gpt-4o").
    eexists. split; [reflexivity | exact I].
  - apply (C8_tokenizer_failure_is_isolated throwingLoader
             (JsString.lit "hello") "gpt-4").
    eexists. split; reflexivity.
Defined.

(** * Further properties of [calculateStats] *)

(** ** Runs *)

Section Runs.

Context {A : Type} (f : A -> bool).

Lemma countRuns_nonneg (bs : list bool) : forall prev, 0 <= countRuns prev bs.
Proof.
  induction bs as [|b rest IH]; intros prev; cbn [countRuns]; [lia|].
  specialize (IH b). destruct (b && negb prev); lia.
Qed.

(** There are no more runs than elements that satisfy the test. *)
Lemma countRuns_le_filter (l : list A) : forall prev,
  countRuns prev (map f l) <= Z.of_nat (List.length (filter f l)).
Proof.
  induction l as [|x rest IH]; intros prev; cbn [map countRuns filter]; [lia|].
  specialize (IH (f x)).
  destruct (f x); cbn [andb List.length]; [|lia].
  rewrite Nat2Z.inj_succ. destruct (negb prev); lia.
Qed.

(** An element that satisfies the test starts or continues a run. *)
Lemma countRuns_pos (l : list A) :
  (0 < Z.of_nat (List.length (filter f l))) ->
  0 < countRuns false (map f l).
Proof.
  induction l as [|x rest IH]; cbn [map countRuns filter]; [cbn; lia|].
  destruct (f x); cbn [andb negb List.length].
  - intros _. pose proof (countRuns_nonneg (map f rest) true). lia.
  - intros H. specialize (IH H). lia.
Qed.

(** An element that fails the test separates the runs on its two sides. *)
Lemma countRuns_split (l1 l2 : list A) (x : A) : forall prev,
  f x = false ->
  countRuns prev (map f (l1 ++ x :: l2))
  = countRuns prev (map f l1) + countRuns false (map f l2).
Proof.
  intros prev Hx. revert prev.
  induction l1 as [|y rest IH]; intros prev; cbn [app map countRuns].
  - rewrite Hx. cbn [andb]. lia.
  - rewrite IH. lia.
Qed.

End Runs.

Lemma countIf_filter (p : Z -> bool) (s : JsString.t) :
  countIf p s = Z.of_nat (List.length (filter p s)).
Proof.
  induction s as [|c rest IH]; cbn [countIf filter]; [reflexivity|].
  destruct (p c); cbn [List.length]; lia.
Qed.

Lemma countIf_app (p : Z -> bool) (a b : JsString.t) :
  countIf p (a ++ b) = countIf p a + countIf p b.
Proof.
  induction a as [|c rest IH]; cbn [app countIf]; lia.
Qed.

(** ** The second loop *)

Lemma wordStep_run (w : Z) (inWord : bool) (c : Z) :
  wordStep (w, inWord) c
  = (w + (if isWordChar c && negb inWord then 1 else 0), isWordChar c).
Proof.
  unfold wordStep. destruct (isWordChar c), inWord; cbn; f_equal; lia.
Qed.

Lemma wordLoop_runs (s : JsString.t) : forall w inWord,
  fst (wordLoop (w, inWord) s) = w + countRuns inWord (map isWordChar s).
Proof.
  induction s as [|c rest IH]; intros w inWord.
  - cbn. lia.
  - unfold wordLoop in *. cbn [fold_left map countRuns].
    rewrite wordStep_run, IH. lia.
Qed.

Lemma words_field (load : Loader) (s : JsString.t) (model : string) :
  words (computeBasicStatistics load s model) = wordRuns s.
Proof.
  rewrite computeBasicStatistics_cases. destruct s as [|c rest]; [reflexivity|].
  unfold scanStats. cbn [words]. rewrite wordLoop_runs. unfold wordRuns. lia.
Qed.

(** A word character is a digit, a letter or an ideograph, and lands in the
    bucket of its kind. *)
Lemma isWordChar_lands (c : Z) :
  (if isWordChar c then 1 else 0)
  = (if lands Numbers c then 1 else 0)
    + (if lands EnglishChars c then 1 else 0)
    + (if lands ChineseChars c then 1 else 0).
Proof.
  unfold isWordChar, lands, classify, isSpace, isDigit, isEnglish, isChinese,
    SP, TAB.
  destruct (Z.eqb_spec c 32); [subst; reflexivity|].
  destruct (Z.eqb_spec c 9); [subst; reflexivity|].
  cbn [orb].
  destruct (Z.leb_spec 48 c), (Z.leb_spec c 57), (Z.leb_spec 65 c),
    (Z.leb_spec c 90), (Z.leb_spec 97 c), (Z.leb_spec c 122),
    (Z.leb_spec 19968 c), (Z.leb_spec c 40959); try lia; cbn;
    try reflexivity; destruct (isPunctuation c); reflexivity.
Qed.

Lemma countIf_isWordChar (s : JsString.t) :
  countIf isWordChar s
  = countIf (lands Numbers) s + countIf (lands EnglishChars) s
    + countIf (lands ChineseChars) s.
Proof.
  induction s as [|c rest IH]; cbn [countIf]; [reflexivity|].
  pose proof (isWordChar_lands c). lia.
Qed.

(** X1: The [words] field is the number of maximal runs of word characters
    (letters a-z and A-Z, digits 0-9, units U+4E00 to U+9FFF): entering a run
    counts one word, whatever the length of the run. *)
Theorem words_are_maximal_runs (load : Loader) (s : JsString.t)
    (model : string) :
  words (computeBasicStatistics load s model)
  = countRuns false (map isWordChar s).
Proof. apply words_field. Qed.

(** X2: There are never more words than counted letters, digits and ideographs
    together, and there is no word exactly when there is none of these. *)
Theorem words_bounded_by_word_characters (load : Loader) (s : JsString.t)
    (model : string) :
  let r := computeBasicStatistics load s model in
  0 <= words r <= englishChars r + numbers r + chineseChars r /\
  (words r = 0 <-> englishChars r + numbers r + chineseChars r = 0).
Proof.
  cbn zeta. rewrite words_field.
  destruct (report_fields load s model) as (_ & _ & Hb & _).
  pose proof (Hb ChineseChars) as H1. pose proof (Hb EnglishChars) as H2.
  pose proof (Hb Numbers) as H3. cbn [bucket] in H1, H2, H3.
  rewrite H1, H2, H3. unfold wordRuns.
  pose proof (countRuns_nonneg (map isWordChar s) false) as Hn.
  pose proof (countRuns_le_filter isWordChar s false) as Hle.
  pose proof (countRuns_pos isWordChar s) as Hpos.
  rewrite <- countIf_filter in Hle, Hpos.
  rewrite countIf_isWordChar in Hle, Hpos.
  pose proof (countIf_nonneg (lands Numbers) s).
  pose proof (countIf_nonneg (lands EnglishChars) s).
  pose proof (countIf_nonneg (lands ChineseChars) s).
  split; [lia|]. split; intros H'; lia.
Qed.

(** ** Lines and paragraphs *)

Lemma splitLines_length (s : JsString.t) :
  Z.of_nat (List.length (splitLines s)) = 1 + countIf (fun c => c =? LF) s.
Proof.
  induction s as [|c rest IH]; [reflexivity|].
  cbn [splitLines countIf].
  destruct (splitLines_cons rest) as (l & ls & Hl). rewrite Hl in *.
  destruct (c =? LF); cbn [List.length] in *; lia.
Qed.

Lemma splitLines_join (a b : JsString.t) :
  splitLines (joinLines a b) = splitLines a ++ splitLines b.
Proof.
  unfold joinLines. induction a as [|c rest IH].
  - cbn [app splitLines]. unfold LF at 1. reflexivity.
  - cbn [app splitLines]. rewrite IH.
    destruct (c =? LF); [reflexivity|].
    destruct (splitLines_cons rest) as (l & ls & ->). reflexivity.
Qed.

Lemma nonBlankLines_le_segments (s : JsString.t) :
  0 <= nonBlankLines s <= Z.of_nat (List.length (splitLines s)).
Proof.
  unfold nonBlankLines.
  pose proof (filter_length_le nonBlank (splitLines s)). lia.
Qed.

(** X3: The [lines] field of a non-empty text is the number of its segments
    between line feeds, one more than its line feeds, so a text that ends in
    a line feed counts the empty segment after it; only the empty text has
    [lines = 0]. *)
Theorem lines_are_segments (load : Loader) (s : JsString.t) (model : string) :
  let r := computeBasicStatistics load s model in
  match s with
  | [] => lines r = 0
  | _ :: _ =>
      lines r = Z.of_nat (List.length (splitLines s)) /\
      lines r = 1 + countIf (fun c => c =? LF) s /\
      lines (computeBasicStatistics load (s ++ [LF]) model) = lines r + 1
  end.
Proof.
  cbn zeta.
  destruct (report_fields load s model) as (_ & _ & _ & _ & Hl & _).
  destruct s as [|c rest]; [exact Hl|].
  rewrite splitLines_length. split; [exact Hl|]. split; [exact Hl|].
  destruct (report_fields load ((c :: rest) ++ [LF]) model)
    as (_ & _ & _ & _ & Hl' & _).
  cbn [app] in Hl' |- *. rewrite Hl', Hl.
  change (c :: rest ++ [LF]) with ((c :: rest) ++ [LF]).
  rewrite countIf_app.
  change (countIf (fun c0 => c0 =? LF) [LF]) with 1. lia.
Qed.

(** X4: Every count of the report is non-negative; there are at most as many
    paragraphs as lines, at most one more line than characters, and the
    maximal runs of non-blank lines are at most the paragraphs counted. *)
Theorem report_bounds (load : Loader) (s : JsString.t) (model : string) :
  let r := computeBasicStatistics load s model in
  0 <= totalCharsNoSpaces r <= totalChars r /\
  0 <= words r <= totalChars r /\
  0 <= paragraphs r <= lines r /\
  lines r <= totalChars r + 1 /\
  paragraphRuns s <= paragraphs r /\
  (forall b, 0 <= bucket b r <= totalChars r).
Proof.
  cbn zeta. rewrite words_field.
  destruct (report_fields load s model) as (Ht & Hn & Hb & Hp & Hl & _).
  rewrite Ht, Hn, Hp.
  assert (Hcount : forall p, 0 <= countIf p s <= JsString.length s).
  { intros p. pose proof (countIf_nonneg p s).
    pose proof (countIf_nonneg (fun c => negb (p c)) s).
    pose proof (countIf_split p s). lia. }
  pose proof (Hcount (lands Spaces)).
  pose proof (Hcount isWordChar) as Hw.
  pose proof (countRuns_nonneg (map isWordChar s) false).
  pose proof (countRuns_le_filter isWordChar s false) as Hr.
  rewrite <- countIf_filter in Hr.
  pose proof (nonBlankLines_le_segments s) as Hseg.
  rewrite splitLines_length in Hseg.
  pose proof (Hcount (fun c => c =? LF)).
  pose proof (countRuns_le_filter nonBlank (splitLines s) false) as Hruns.
  fold (paragraphRuns s) in Hruns. fold (nonBlankLines s) in Hruns.
  unfold wordRuns.
  repeat split; try lia.
  - destruct s as [|c rest]; [cbn in *; lia | lia].
  - destruct s as [|c rest]; [cbn in *; lia | lia].
  - rewrite Hb. apply Hcount.
  - rewrite Hb. apply Hcount.
Qed.

(** ** The classification does not depend on the order of its tests *)

Lemma punctuationTest_In (c : Z) :
  punctuationTest c = true -> In c punctuationClass.
Proof.
  unfold punctuationTest. intros H. apply existsb_exists in H as (k & Hin & Hk).
  apply Z.eqb_eq in Hk. now subst.
Qed.

Lemma lands_Punctuation (c : Z) : lands Punctuation c = punctuationTest c.
Proof.
  destruct (punctuationTest c) eqn:Hp.
  - apply punctuationTest_In in Hp. unfold punctuationClass in Hp.
    cbn [In] in Hp.
    repeat (destruct Hp as [<-|Hp]; [reflexivity|]). contradiction.
  - unfold lands, classify, isPunctuation. rewrite Hp, andb_false_r.
    destruct (isSpace c), (isDigit c), (isEnglish c), (isChinese c);
      reflexivity.
Qed.

Lemma lands_ranges (c : Z) :
  lands Numbers c = isDigit c /\
  lands EnglishChars c = isEnglish c /\
  lands ChineseChars c = isChinese c.
Proof.
  unfold lands, classify, isSpace, isDigit, isEnglish, isChinese, SP, TAB.
  destruct (Z.eqb_spec c 32); [subst; repeat split|].
  destruct (Z.eqb_spec c 9); [subst; repeat split|].
  cbn [orb].
  destruct (Z.leb_spec 48 c), (Z.leb_spec c 57), (Z.leb_spec 65 c),
    (Z.leb_spec c 90), (Z.leb_spec 97 c), (Z.leb_spec c 122),
    (Z.leb_spec 19968 c), (Z.leb_spec c 40959); try lia; cbn;
    repeat split; destruct (isPunctuation c); reflexivity.
Qed.

(** X5: The five tests of the classification exclude one another, so each
    counter is the number of units that pass its own test, whatever the
    order of the chain: [numbers] counts the digits 0-9, [englishChars] the
    letters A-Z and a-z, [chineseChars] the units U+4E00 to U+9FFF, and
    [punctuation] the units of the punctuation class, where the exclusion
    of line feed and carriage return changes nothing. *)
Theorem buckets_count_their_own_test (load : Loader) (s : JsString.t)
    (model : string) :
  let r := computeBasicStatistics load s model in
  numbers r = countIf isDigit s /\
  englishChars r = countIf isEnglish s /\
  chineseChars r = countIf isChinese s /\
  punctuation r = countIf punctuationTest s /\
  spaces r = countIf isSpace s.
Proof.
  cbn zeta.
  destruct (report_fields load s model) as (_ & _ & Hb & _).
  pose proof (Hb ChineseChars) as H1. pose proof (Hb EnglishChars) as H2.
  pose proof (Hb Numbers) as H3. pose proof (Hb Punctuation) as H4.
  pose proof (Hb Spaces) as H5. cbn [bucket] in H1, H2, H3, H4, H5.
  rewrite H1, H2, H3, H4, H5.
  repeat split; apply countIf_ext; intros c;
    try apply lands_ranges; try apply lands_Punctuation.
  apply lands_Spaces.
Qed.

(** ** Texts put together *)

(** X6: The character counts of a concatenation are the sums of the counts of
    its parts: [totalChars], [totalCharsNoSpaces] and the five buckets. *)
Theorem character_counts_add_up (load : Loader) (a b : JsString.t)
    (model : string) :
  let ra := computeBasicStatistics load a model in
  let rb := computeBasicStatistics load b model in
  let r := computeBasicStatistics load (a ++ b) model in
  totalChars r = totalChars ra + totalChars rb /\
  totalCharsNoSpaces r = totalCharsNoSpaces ra + totalCharsNoSpaces rb /\
  (forall k, bucket k r = bucket k ra + bucket k rb).
Proof.
  cbn zeta.
  destruct (report_fields load a model) as (Hta & Hna & Hba & _).
  destruct (report_fields load b model) as (Htb & Hnb & Hbb & _).
  destruct (report_fields load (a ++ b) model) as (Ht & Hn & Hb & _).
  rewrite Ht, Hn, Hta, Hna, Htb, Hnb, length_app, countIf_app.
  split; [lia|]. split; [lia|].
  intros k. rewrite Hb, Hba, Hbb. apply countIf_app.
Qed.

(** X7: Joining two texts with one line feed adds their paragraphs and their
    words, and, when neither text is empty, their lines. *)
Theorem joined_texts_add_up (load : Loader) (a b : JsString.t)
    (model : string) :
  let ra := computeBasicStatistics load a model in
  let rb := computeBasicStatistics load b model in
  let r := computeBasicStatistics load (joinLines a b) model in
  paragraphs r = paragraphs ra + paragraphs rb /\
  words r = words ra + words rb /\
  (a <> [] -> b <> [] -> lines r = lines ra + lines rb).
Proof.
  cbn zeta. rewrite !words_field.
  destruct (report_fields load a model) as (_ & _ & _ & Hpa & Hla & _).
  destruct (report_fields load b model) as (_ & _ & _ & Hpb & Hlb & _).
  destruct (report_fields load (joinLines a b) model)
    as (_ & _ & _ & Hp & Hl & _).
  split; [|split].
  - rewrite Hp, Hpa, Hpb. unfold nonBlankLines.
    rewrite splitLines_join, filter_app, List.length_app. lia.
  - unfold wordRuns, joinLines. now apply countRuns_split.
  - intros Ha Hb'. rewrite Hl, Hla, Hlb. unfold joinLines.
    destruct a as [|ca resta]; [contradiction|].
    destruct b as [|cb restb]; [contradiction|].
    cbn [app]. change (ca :: resta ++ LF :: cb :: restb)
      with ((ca :: resta) ++ [LF] ++ cb :: restb).
    rewrite !countIf_app.
    change (countIf (fun c => c =? LF) [LF]) with 1. lia.
Qed.

(** Two one-letter texts joined by a line feed. *)
Lemma joined_texts_add_up_witness :
  lines (computeBasicStatistics rejectingLoader
           (joinLines (JsString.lit "a") (JsString.lit "b")) "gpt-4o")
  = lines (computeBasicStatistics rejectingLoader (JsString.lit "a") "gpt-4o")
    + lines (computeBasicStatistics rejectingLoader (JsString.lit "b") "gpt-4o").
Proof.
  apply (joined_texts_add_up rejectingLoader (JsString.lit "a")
           (JsString.lit "b") "gpt-4o"); discriminate.
Defined.

(** * Further properties of the token path *)

Lemma computeBasicStatistics_independent (load load' : Loader)
    (s : JsString.t) (model model' : string) :
  computeBasicStatistics load s model = computeBasicStatistics load' s model'.
Proof. now rewrite !computeBasicStatistics_cases. Qed.

Lemma calculateTokens_nonneg (load : Loader) (s : JsString.t)
    (model : string) :
  0 <= fst (calculateTokens load s model).
Proof.
  unfold calculateTokens.
  destruct (findModel model) as [m|]; [|cbn; lia].
  destruct (load _) as [tk|]; [|cbn; lia].
  destruct (encode tk s) as [ids|]; cbn [fst]; lia.
Qed.

(** X8: [calculateStats] with [includeTokens] on returns the same basic counts
    as without, whatever the tokenizer and the model; its [tokens] field is
    the value of [calculateTokens] and its effects are those of that call.
    For the empty text it returns [tokens = 0] without looking for a
    tokenizer at all. *)
Theorem calculateStats_with_tokens (load load' : Loader) (s : JsString.t)
    (model model' : string) :
  let r := fst (calculateStats load s true model) in
  basicCounts r = computeBasicStatistics load' s model' /\
  match s with
  | [] => tokens r = Some 0 /\ snd (calculateStats load s true model) = []
  | _ :: _ =>
      tokens r = Some (fst (calculateTokens load s model)) /\
      snd (calculateStats load s true model) = snd (calculateTokens load s model)
  end.
Proof.
  cbn zeta. rewrite (computeBasicStatistics_cases load' s model').
  unfold calculateStats. destruct s as [|c rest].
  - repeat split.
  - rewrite length_cons_nonzero.
    destruct (calculateTokens load (c :: rest) model) as [n effs].
    repeat split.
Qed.

(** X9: The value of [calculateTokens] is never negative, so it is never the
    pending mark -1; it is positive only for a supported model whose module
    loads and whose [encode] returns at least one token. *)
Theorem calculateTokens_never_pending_mark (load : Loader) (s : JsString.t)
    (modelValue : string) :
  let n := fst (calculateTokens load s modelValue) in
  0 <= n /\ n <> -1 /\
  (0 < n ->
   exists model tokenizer ids,
     findModel modelValue = Some model /\
     load (encodingModule (encoding model)) = Some tokenizer /\
     encode tokenizer s = Some ids /\
     n = Z.of_nat (List.length ids)).
Proof.
  cbn zeta. pose proof (calculateTokens_nonneg load s modelValue) as Hn.
  split; [exact Hn|]. split; [lia|].
  unfold calculateTokens in *.
  destruct (findModel modelValue) as [m|]; [|cbn; lia].
  destruct (load (encodingModule (encoding m))) as [tk|] eqn:Hload;
    [|cbn; lia].
  destruct (encode tk s) as [ids|] eqn:Henc; cbn [fst]; [|lia].
  intros _. exists m, tk, ids. repeat split; assumption.
Qed.

(** A token count above zero, from a tokenizer with one token per unit. *)
Lemma calculateTokens_never_pending_mark_witness :
  exists model tokenizer ids,
    findModel "gpt-4" = Some model /\
    unitLoader (encodingModule (encoding model)) = Some tokenizer /\
    encode tokenizer (JsString.lit "hello") = Some ids /\
    fst (calculateTokens unitLoader (JsString.lit "hello") "gpt-4")
    = Z.of_nat (List.length ids).
Proof.
  apply (calculateTokens_never_pending_mark unitLoader (JsString.lit "hello")
           "gpt-4").
  vm_compute. reflexivity.
Defined.

(** X10: [calculateTokens] writes to [console.error] exactly when the tokenizer
    of a supported model fails to load or to encode; for an unsupported
    model it returns 0 silently. *)
Theorem calculateTokens_logs_exactly_failures (load : Loader)
    (s : JsString.t) (modelValue : string) :
  (exists site, In (ConsoleError site) (snd (calculateTokens load s modelValue)))
  <-> tokenizerFails load s modelValue.
Proof.
  split; [|apply calculateTokens_failure].
  unfold tokenizerFails, calculateTokens.
  destruct (findModel modelValue) as [m|]; [|intros (site & [])].
  intros (site & Hin). exists m. split; [reflexivity|].
  destruct (load (encodingModule (encoding m))) as [tk|]; [|exact I].
  destruct (encode tk s) as [ids|]; [|reflexivity].
  cbn [snd In] in Hin.
  destruct Hin as [H|[H|[H|[]]]]; discriminate H.
Qed.

(** X11: Every identifier of [SUPPORTED_MODELS] is found as its own entry (no
    identifier occurs twice), and the encoding of every entry has its own
    case in the switch, which imports the module of that name: the default
    case is never taken. *)
Theorem supported_models_resolve (m : Model) :
  In m SUPPORTED_MODELS ->
  findModel (value m) = Some m /\
  encodingModule (encoding m)
  = ("gpt-tokenizer/encoding/" ++ encoding m)%string.
Proof.
  unfold SUPPORTED_MODELS. cbn [In]. intros H.
  repeat (destruct H as [<-|H]; [split; reflexivity|]). contradiction.
Qed.

(** The entry of text-davinci-001. *)
Lemma supported_models_resolve_witness :
  encodingModule "r50k_base" = "gpt-tokenizer/encoding/r50k_base"%string.
Proof.
  apply (supported_models_resolve
           (mkModel "text-davinci-001" "Text Davinci 001" "r50k_base")).
  cbn [In SUPPORTED_MODELS]. do 9 right. left. reflexivity.
Defined.

(** * Further properties of the scheduling *)

Lemma run_app (load : Loader) (evs1 evs2 : list Event) : forall c,
  run load c (evs1 ++ evs2)
  = match run load c evs1 with
    | Some c1 => run load c1 evs2
    | None => None
    end.
Proof.
  induction evs1 as [|ev rest IH]; intros c; cbn [app run]; [reflexivity|].
  destruct (step load c ev); [apply IH | reflexivity].
Qed.

(** A burst of calls leaves everything but the timer and the flag alone. *)
Lemma run_scheduleAll (load : Loader) (calls : list Call) : forall c,
  exists c1,
    run load c (scheduleAll calls) = Some c1 /\
    stats c1 = stats c /\ pendingTokens c1 = pendingTokens c /\
    published c1 = published c /\ fired c1 = fired c.
Proof.
  induction calls as [|[[inputText en] model] rest IH]; intros c.
  - exists c. repeat split.
  - cbn [scheduleAll map run step].
    destruct (IH (updateStats c inputText en model))
      as (c1 & Hrun & Hs & Hp & Hpub & Hf).
    exists c1. split; [exact Hrun|]. repeat split; assumption.
Qed.

(** X12: Debounce: after any burst of calls of [updateStats] and one firing of
    the timer, only the cycle of the last call has run.  Its basic report
    (and, with token counting on, the pending mark) is all that was
    published, its token computation is all that was started, and no timer
    is left to fire. *)
Theorem debounce_runs_last_call_only (load : Loader) (c : Component)
    (calls : list Call) (inputText : JsString.t) (en : bool)
    (model : string) :
  let tm := timerOf inputText en model in
  exists c',
    run load c (scheduleAll (calls ++ [(inputText, en, model)]) ++ [TimerFires])
    = Some c' /\
    fired c' = tm :: fired c /\
    published c' = cyclePublications load tm ++ published c /\
    pendingTokens c' = pendingTokens c ++ cycleJobs tm /\
    debounceTimeoutRef c' = None /\
    step load c' TimerFires = None.
Proof.
  cbn zeta.
  replace (scheduleAll (calls ++ [(inputText, en, model)]))
    with (scheduleAll calls ++ [UpdateStats inputText en model])
    by (unfold scheduleAll; now rewrite map_app).
  rewrite <- app_assoc, run_app.
  destruct (run_scheduleAll load calls c) as (c1 & -> & Hs & Hp & Hpub & Hf).
  cbn [app run step updateStats debounceTimeoutRef].
  eexists. split; [reflexivity|].
  unfold timerCallback, updateStats, cyclePublications, cycleJobs, timerOf,
    computeBasicStatistics.
  cbn [t_enableTokenCount t_inputText t_selectedModel pendingTokens published
       fired].
  rewrite Hp, Hpub, Hf.
  destruct en; cbn [fired published pendingTokens debounceTimeoutRef step app];
    rewrite ?app_nil_r; repeat split.
Qed.

Lemma dropNth_length {A} (l : list A) : forall i x,
  nth_error l i = Some x -> S (List.length (dropNth i l)) = List.length l.
Proof.
  induction l as [|y rest IH]; intros i x Hx; [destruct i; discriminate|].
  destruct i as [|j]; cbn [dropNth List.length]; [reflexivity|].
  cbn [nth_error] in Hx. now rewrite (IH j x Hx).
Qed.


Lemma Accounted_step (load : Loader) (c c' : Component) (ev : Event) :
  Accounted c -> step load c ev = Some c' -> Accounted c'.
Proof.
  intros [Hn Hj Hs] Hstep.
  destruct ev as [inputText en model| |i]; cbn [step] in Hstep.
  - injection Hstep as <-. constructor; assumption.
  - destruct (debounceTimeoutRef c) as [tm|]; [|discriminate].
    injection Hstep as <-. unfold timerCallback.
    destruct (t_enableTokenCount tm) eqn:Hen; constructor;
      cbn [stats published pendingTokens fired filter hd List.length];
      rewrite ?Hen, ?List.length_app; cbn [List.length];
      try reflexivity; lia.
  - destruct (nth_error (pendingTokens c) i) as [job|] eqn:Hjob; [|discriminate].
    injection Hstep as <-. unfold tokensResolved.
    pose proof (dropNth_length _ _ _ Hjob).
    constructor; cbn [stats published pendingTokens fired hd List.length];
      [lia | lia | reflexivity].
Qed.

Lemma invariant_run (load : Loader) (P : Component -> Prop) :
  (forall c c' ev, P c -> step load c ev = Some c' -> P c') ->
  forall evs c c', P c -> run load c evs = Some c' -> P c'.
Proof.
  intros Hstep. induction evs as [|ev rest IH]; intros c c' Hc Hrun;
    cbn [run] in Hrun.
  - now injection Hrun as <-.
  - destruct (step load c ev) as [c1|] eqn:H1; [|discriminate].
    eapply IH; [|exact Hrun]. eapply Hstep; eauto.
Qed.



(** X14: No publication is lost or repeated: after any sequence of events the
    writes to [stats] number one per timer fired, one more per timer fired
    with token counting on, and one per token computation that has resolved
    (those started less those in flight); the report on display is the last
    one written. *)
Theorem publications_are_accounted_for (load : Loader) (evs : list Event)
    (c : Component) :
  run load mount evs = Some c ->
  Z.of_nat (List.length (published c))
  = Z.of_nat (List.length (fired c))
    + Z.of_nat (List.length (filter t_enableTokenCount (fired c)))
    + (Z.of_nat (List.length (filter t_enableTokenCount (fired c)))
       - Z.of_nat (List.length (pendingTokens c))) /\
  0 <= Z.of_nat (List.length (filter t_enableTokenCount (fired c)))
       - Z.of_nat (List.length (pendingTokens c)) /\
  stats c = hd (emptyStats None) (published c).
Proof.
  intros Hrun.
  assert (Hacc : Accounted c).
  { apply (invariant_run load Accounted (Accounted_step load)
             evs mount c); [|exact Hrun].
    constructor; cbn; try reflexivity; lia. }
  destruct Hacc as [Hn Hj Hs].
  split; [lia|]. split; [lia | exact Hs].
Qed.

(** The books after the events of [staleTrace]. *)
Lemma publications_are_accounted_for_witness :
  exists c,
    run unitLoader mount staleTrace = Some c /\
    stats c = hd (emptyStats None) (published c).
Proof.
  eexists. split; [vm_compute; reflexivity|].
  apply (publications_are_accounted_for unitLoader staleTrace).
  vm_compute. reflexivity.
Defined.

(** * Properties of the page *)















(** * Content and carriage returns *)

Lemma nonBlankLines_cons (c : Z) (rest : JsString.t) :
  nonBlankLines (c :: rest)
  = if c =? LF then nonBlankLines rest
    else match splitLines rest with
         | l :: ls =>
             (if opensParagraph c || nonBlank l then 1 else 0)
             + Z.of_nat (List.length (filter nonBlank ls))
         | [] => 0
         end.
Proof.
  unfold nonBlankLines. cbn [splitLines].
  destruct (c =? LF); [reflexivity|].
  destruct (splitLines_cons rest) as (l & ls & ->).
  cbn [filter nonBlank existsb]. fold (nonBlank l).
  destruct (opensParagraph c || nonBlank l); cbn [List.length]; lia.
Qed.

Lemma nonBlankLines_content (s : JsString.t) :
  nonBlankLines s <= countIf isContent s /\
  (0 < countIf isContent s -> 0 < nonBlankLines s).
Proof.
  induction s as [|c rest [IHle IHpos]]; [cbn; lia|].
  rewrite nonBlankLines_cons. cbn [countIf]. unfold isContent at 1 3.
  unfold nonBlankLines in IHle, IHpos.
  destruct (c =? LF); cbn [negb andb].
  - fold (nonBlankLines rest). unfold nonBlankLines. lia.
  - destruct (splitLines_cons rest) as (l & ls & Hl). rewrite Hl in *.
    cbn [filter] in IHle, IHpos.
    destruct (opensParagraph c), (nonBlank l); cbn [orb List.length] in *; lia.
Qed.

Lemma isWordChar_isContent (c : Z) :
  isWordChar c = true -> isContent c = true.
Proof.
  unfold isWordChar, isContent, opensParagraph, LF, SP, TAB, CR.
  destruct (Z.eqb_spec c 10); [subst; discriminate|].
  destruct (Z.eqb_spec c 32); [subst; discriminate|].
  destruct (Z.eqb_spec c 9); [subst; discriminate|].
  destruct (Z.eqb_spec c 13); [subst; discriminate|].
  reflexivity.
Qed.

(** X16: A text has paragraphs exactly when it has content, a unit other than
    line feed, space, tab and carriage return; there are at most as many
    paragraphs as such units, and a text with a word has a paragraph. *)
Theorem paragraphs_need_content (load : Loader) (s : JsString.t)
    (model : string) :
  let r := computeBasicStatistics load s model in
  (paragraphs r = 0 <-> countIf isContent s = 0) /\
  paragraphs r <= countIf isContent s /\
  (0 < words r -> 0 < paragraphs r).
Proof.
  cbn zeta. rewrite words_field.
  destruct (report_fields load s model) as (_ & _ & _ & Hp & _).
  rewrite Hp. destruct (nonBlankLines_content s) as [Hle Hpos].
  pose proof (nonBlankLines_le_segments s) as [H0 _].
  pose proof (countIf_nonneg isContent s).
  split; [split; lia|]. split; [exact Hle|].
  intros Hw. apply Hpos.
  pose proof (countRuns_le_filter isWordChar s false) as Hr.
  rewrite <- countIf_filter in Hr. fold (wordRuns s) in Hr.
  pose proof (countIf_le isWordChar isContent s isWordChar_isContent). lia.
Qed.

(** One word, one paragraph. *)
Lemma paragraphs_need_content_witness :
  0 < paragraphs (computeBasicStatistics rejectingLoader (JsString.lit "hi")
                    "gpt-4o").
Proof.
  apply (paragraphs_need_content rejectingLoader (JsString.lit "hi") "gpt-4o").
  vm_compute. reflexivity.
Defined.

Lemma countIf_withoutCR (p : Z -> bool) (s : JsString.t) :
  p CR = false -> countIf p (withoutCR s) = countIf p s.
Proof.
  intros Hp. unfold withoutCR.
  induction s as [|c rest IH]; [reflexivity|]. cbn [filter countIf].
  destruct (Z.eqb_spec c CR) as [->|Hne]; cbn [negb countIf].
  - rewrite Hp. lia.
  - lia.
Qed.

Lemma withoutCR_cons (c : Z) (rest : JsString.t) :
  withoutCR (c :: rest)
  = if c =? CR then withoutCR rest else c :: withoutCR rest.
Proof. unfold withoutCR. cbn [filter]. now destruct (c =? CR). Qed.

Lemma splitLines_withoutCR (s : JsString.t) :
  splitLines (withoutCR s) = map withoutCR (splitLines s).
Proof.
  induction s as [|c rest IH]; [reflexivity|].
  rewrite withoutCR_cons. cbn [splitLines].
  destruct (splitLines_cons rest) as (l & ls & Hl).
  rewrite Hl in IH |- *.
  destruct (Z.eqb_spec c CR) as [->|Hne].
  - change (CR =? LF) with false. cbn [map]. rewrite withoutCR_cons.
    change (CR =? CR) with true. exact IH.
  - cbn [splitLines]. rewrite IH.
    destruct (c =? LF); [reflexivity|].
    cbn [map]. rewrite withoutCR_cons.
    destruct (Z.eqb_spec c CR); [contradiction|]. reflexivity.
Qed.

Lemma nonBlank_withoutCR (l : JsString.t) :
  nonBlank (withoutCR l) = nonBlank l.
Proof.
  unfold nonBlank, withoutCR. induction l as [|c rest IH]; [reflexivity|].
  cbn [filter existsb].
  destruct (Z.eqb_spec c CR) as [->|Hne]; cbn [negb existsb];
    [|now rewrite IH].
  rewrite IH. reflexivity.
Qed.

Lemma nonBlankLines_withoutCR (s : JsString.t) :
  nonBlankLines (withoutCR s) = nonBlankLines s.
Proof.
  unfold nonBlankLines. rewrite splitLines_withoutCR. f_equal.
  induction (splitLines s) as [|l ls IH]; [reflexivity|].
  cbn [map filter]. rewrite nonBlank_withoutCR.
  destruct (nonBlank l); cbn [List.length]; now rewrite IH.
Qed.

(** X17: Carriage returns count as characters and nothing else: removing them
    from a text leaves its paragraphs and its five bucket counts as they
    were, lowers [totalChars] and [totalCharsNoSpaces] by their number, and,
    unless nothing is left, leaves [lines] as it was. *)
Theorem carriage_returns_only_add_characters (load : Loader)
    (s : JsString.t) (model : string) :
  let r := computeBasicStatistics load s model in
  let r' := computeBasicStatistics load (withoutCR s) model in
  paragraphs r' = paragraphs r /\
  (forall b, bucket b r' = bucket b r) /\
  totalChars r' = totalChars r - countIf (fun c => c =? CR) s /\
  totalCharsNoSpaces r' = totalCharsNoSpaces r - countIf (fun c => c =? CR) s /\
  (withoutCR s <> [] -> lines r' = lines r).
Proof.
  cbn zeta.
  destruct (report_fields load s model) as (Ht & Hn & Hb & Hp & Hl & _).
  destruct (report_fields load (withoutCR s) model)
    as (Ht' & Hn' & Hb' & Hp' & Hl' & _).
  assert (Hlen : JsString.length (withoutCR s)
                 = JsString.length s - countIf (fun c => c =? CR) s).
  { pose proof (countIf_split (fun c => c =? CR) s) as H1. cbv beta in H1.
    rewrite <- H1. unfold withoutCR, JsString.length.
    rewrite <- countIf_filter. lia. }
  split; [now rewrite Hp', Hp, nonBlankLines_withoutCR|].
  split; [intros b; rewrite Hb', Hb; apply countIf_withoutCR;
          destruct b; reflexivity|].
  split; [now rewrite Ht', Ht|].
  split; [rewrite Hn', Hn, Hlen, countIf_withoutCR by reflexivity; lia|].
  intros Hne. rewrite Hl', Hl.
  destruct (withoutCR s) as [|c' rest'] eqn:Hw; [contradiction|].
  destruct s as [|c rest]; [discriminate|].
  rewrite <- Hw. now rewrite countIf_withoutCR by reflexivity.
Qed.

(** A line with a Windows line ending before a second line. *)
Lemma carriage_returns_only_add_characters_witness :
  lines (computeBasicStatistics rejectingLoader
           (withoutCR (JsString.lit "a" ++ [CR; LF] ++ JsString.lit "b"))
           "gpt-4o")
  = lines (computeBasicStatistics rejectingLoader
             (JsString.lit "a" ++ [CR; LF] ++ JsString.lit "b") "gpt-4o").
Proof.
  apply (carriage_returns_only_add_characters rejectingLoader
           (JsString.lit "a" ++ [CR; LF] ++ JsString.lit "b") "gpt-4o").
  vm_compute. discriminate.
Defined.

(** * The delay *)

(** X18: A longer text never gets a shorter delay, and every delay is one of the
    four tiers, between 300 and 2000 ms. *)
Theorem debounceDelay_monotone (a b : Z) :
  a <= b ->
  debounceDelay a <= debounceDelay b /\
  300 <= debounceDelay a <= 2000 /\
  In (debounceDelay a) [300; 600; 1000; 2000].
Proof.
  intros Hab. unfold debounceDelay.
  destruct (Z.gtb_spec a 100000), (Z.gtb_spec a 50000), (Z.gtb_spec a 10000),
    (Z.gtb_spec b 100000), (Z.gtb_spec b 50000), (Z.gtb_spec b 10000);
    try lia; cbn [In]; repeat split; try lia; auto.
Qed.

(** The delays at lengths 10,000 and 10,001. *)
Lemma debounceDelay_monotone_witness :
  debounceDelay 10000 <= debounceDelay 10001.
Proof. apply (debounceDelay_monotone 10000 10001). lia. Defined.
